(** * Adaptify-AI NLP engine: a shallow embedding of [fastapi_service/nlp_engine.py]

    The development follows the layout of the Python module: string
    primitives of the Python runtime that the module relies on, Python
    values and exceptions, the lazily loaded embedding model, the FAISS
    vector store, the prompt builders, the model client, the response
    parser, the mock fallback and the four orchestration flows.

    Conventions.
    - A Python [str] is a [string]; one [ascii] is one character.  The model
      is exact on ASCII text: characters above 127 are kept as they are and
      are neither white space, nor digits, nor cased.
    - A Python [dict] with string keys is a [gmap string value], so that
      Python's order-insensitive [==] on dictionaries is Leibniz equality.
    - Everything that lives outside the module (the HuggingFace loader,
      FAISS, the Perplexity endpoint, [json.loads], the text splitter, the
      file system) is a field of the record [Env]; every theorem holds for
      every such environment.
    - Exceptions are the subclasses of Python's [Exception]; the
      [BaseException]-only signals (task cancellation, interpreter exit) are
      outside the model.  Console output is not modelled. *)

From Stdlib Require Import ZArith Lia Ascii String DecimalString.
From stdpp Require Import gmap strings list fin_maps.

#[local] Set Warnings "-register-all".
#[local] Open Scope Z_scope.

(** ** Python string primitives *)

Module Py.

Definition code (c : ascii) : nat := nat_of_ascii c.

Definition between (lo hi : nat) (c : ascii) : bool :=
  (Nat.leb lo (code c) && Nat.leb (code c) hi)%bool.

(** [str.isspace] on one character, which is also the class [\s] of [re]:
    tab, line feed, vertical tab, form feed, carriage return, the four
    separators 0x1c-0x1f and the space. *)
Definition is_space (c : ascii) : bool :=
  (between 9 13 c || between 28 32 c)%bool.

Definition is_digit (c : ascii) : bool := between 48 57 c.
Definition is_upper (c : ascii) : bool := between 65 90 c.
Definition is_lower (c : ascii) : bool := between 97 122 c.

Definition nl : ascii := "010"%char.
Definition dquote : ascii := "034"%char.
Definition NL : string := String nl "".
Definition DQ : string := String dquote "".

(** [len(s)] *)
Definition len (s : string) : nat := String.length s.

(** [s[:n]] *)
Fixpoint take (n : nat) (s : string) : string :=
  match n, s with
  | S n', String c r => String c (take n' r)
  | _, _ => ""
  end.

(** [s[n:]] *)
Fixpoint drop (n : nat) (s : string) : string :=
  match n, s with
  | S n', String _ r => drop n' r
  | _, _ => s
  end.

Fixpoint drop_while (p : ascii -> bool) (s : string) : string :=
  match s with
  | String c r => if p c then drop_while p r else s
  | "" => ""
  end.

Fixpoint all_chars (p : ascii -> bool) (s : string) : bool :=
  match s with
  | String c r => (p c && all_chars p r)%bool
  | "" => true
  end.

Fixpoint map_chars (f : ascii -> ascii) (s : string) : string :=
  match s with
  | String c r => String (f c) (map_chars f r)
  | "" => ""
  end.

(** [s.lstrip()], [s.rstrip()], [s.strip()] *)
Definition lstrip (s : string) : string := drop_while is_space s.

Fixpoint rstrip (s : string) : string :=
  match s with
  | "" => ""
  | String c r =>
      match rstrip r with
      | "" => if is_space c then "" else String c ""
      | r' => String c r'
      end
  end.

Definition strip (s : string) : string := rstrip (lstrip s).

(** [s.removeprefix(p)] together with the test [s.startswith(p)] *)
Fixpoint strip_prefix (p s : string) : option string :=
  match p, s with
  | "", _ => Some s
  | String a p', String b s' =>
      if Ascii.eqb a b then strip_prefix p' s' else None
  | String _ _, "" => None
  end.

Definition strip_suffix (p s : string) : option string :=
  String.rev <$> strip_prefix (String.rev p) (String.rev s).

Definition starts_with (p s : string) : bool :=
  match strip_prefix p s with Some _ => true | None => false end.

(** [s.lower()], [s.capitalize()] *)
Definition lower_char (c : ascii) : ascii :=
  if is_upper c then ascii_of_nat (code c + 32) else c.
Definition upper_char (c : ascii) : ascii :=
  if is_lower c then ascii_of_nat (code c - 32) else c.

Definition lower (s : string) : string := map_chars lower_char s.

Definition capitalize (s : string) : string :=
  match s with
  | "" => ""
  | String c r => String (upper_char c) (lower r)
  end.

(** [sep.join(parts)] *)
Fixpoint join (sep : string) (parts : list string) : string :=
  match parts with
  | [] => ""
  | [p] => p
  | p :: rest => p +:+ sep +:+ join sep rest
  end.

Definition cons_head (c : ascii) (parts : list string) : list string :=
  match parts with
  | h :: t => String c h :: t
  | [] => [String c ""]
  end.

(** [s.split(d)] for a one-character separator [d] *)
Fixpoint split_char (d : ascii) (s : string) : list string :=
  match s with
  | "" => [""]
  | String c r =>
      if Ascii.eqb c d then "" :: split_char d r
      else cons_head c (split_char d r)
  end.

(** [s.split('\n\n')]: the occurrences of the separator are taken from
    left to right and do not overlap. *)
Fixpoint split_blank_line (s : string) : list string :=
  match s with
  | "" => [""]
  | String c r =>
      match r with
      | String c' r' =>
          if (Ascii.eqb c nl && Ascii.eqb c' nl)%bool
          then "" :: split_blank_line r'
          else cons_head c (split_blank_line r)
      | "" => [String c ""]
      end
  end.

(** [s.split()]: the maximal runs of non-space characters.  [cur] is the
    current word, reversed. *)
Fixpoint split_go (cur : string) (s : string) : list string :=
  match s with
  | "" => match cur with "" => [] | _ => [String.rev cur] end
  | String c r =>
      if is_space c then
        match cur with
        | "" => split_go "" r
        | _ => String.rev cur :: split_go "" r
        end
      else split_go (String c cur) r
  end.

Definition split (s : string) : list string := split_go "" s.

(** [re.split(r'[...]+', s)] for a character class [delim]: the text
    between the maximal runs of delimiters, empty pieces included.  [cur]
    is the current piece, reversed; [in_run] tells that the previous
    character was a delimiter. *)
Fixpoint re_split_go (delim : ascii -> bool) (cur : string) (in_run : bool)
    (s : string) : list string :=
  match s with
  | "" => [String.rev cur]
  | String c r =>
      if delim c then
        if in_run then re_split_go delim "" true r
        else String.rev cur :: re_split_go delim "" true r
      else re_split_go delim (String c cur) false r
  end.

Definition re_split_class (delim : ascii -> bool) (s : string) : list string :=
  re_split_go delim "" false s.

(** [str(n)] and [f"{n}"] for an [int] *)
Definition str_of_int (n : Z) : string := NilZero.string_of_int (Z.to_int n).

(** [needle in s] *)
Fixpoint contains (needle s : string) : bool :=
  (starts_with needle s
   || match s with
      | String _ r => contains needle r
      | "" => false
      end)%bool.

Fixpoint find_char (d : ascii) (s : string) : option (string * string) :=
  match s with
  | "" => None
  | String c r =>
      if Ascii.eqb c d then Some ("", r)
      else '(pre, post) ← find_char d r; Some (String c pre, post)
  end.

End Py.

(** ** Python values, exceptions and effects *)

(** The values that [json.loads] produces and that the flows return.  A
    [float] is carried as its IEEE-754 bit pattern; no operation of the module
    looks inside one. *)
Inductive value : Type :=
| VNone
| VBool (b : bool)
| VInt (n : Z)
| VFloat (bits : Z)
| VStr (s : string)
| VList (items : list value)
| VDict (d : gmap string value).

#[global] Instance value_inhabited : Inhabited value := populate VNone.

(** The exception classes the module tells apart.  [Exception] stands for
    every other subclass of Python's [Exception]. *)
Inductive exception : Type :=
| JSONDecodeError (msg : string)
| TypeError (msg : string)
| AttributeError (msg : string)
| Exception (msg : string).

(** [str(e)] *)
Definition str_exc (e : exception) : string :=
  match e with
  | JSONDecodeError m | TypeError m | AttributeError m | Exception m => m
  end.

Definition is_JSONDecodeError (e : exception) : bool :=
  match e with JSONDecodeError _ => true | _ => false end.

(** The result of running a piece of Python: a value or a raised exception. *)
Inductive outcome (A : Type) : Type :=
| Ret (a : A)
| Raise (e : exception).
Arguments Ret {A} a.
Arguments Raise {A} e.

#[global] Instance Ret_inj {A} : Inj (=) (=) (@Ret A).
Proof. intros a b H. now injection H. Qed.

(** [try: body  except Exception as e: handler(e)] for code without side
    effects on the module globals. *)
Definition try_except {A} (body : outcome A) (handler : exception -> outcome A)
    : outcome A :=
  match body with
  | Ret a => Ret a
  | Raise e => handler e
  end.

Definition obind {A B} (o : outcome A) (k : A -> outcome B) : outcome B :=
  match o with
  | Ret a => k a
  | Raise e => Raise e
  end.

(** ** The environment of the module *)

(** What the module imports or reads from its surroundings.  A call that can
    raise returns an [outcome]. *)
Class Env : Type := {
  (** the object returned by [HuggingFaceEmbeddings(...)] *)
  embedder : Type;
  (** a FAISS vector store object *)
  index : Type;
  (** the import guards at the top of the module *)
  HAS_LANGCHAIN : bool;
  HAS_FAISS : bool;
  HAS_EMBEDDINGS : bool;
  HAS_OPENAI : bool;
  (** [os.getenv("PERPLEXITY_API_KEY", "")] *)
  PERPLEXITY_API_KEY : string;
  (** [Path(__file__).parent / "vector_stores"] *)
  VECTOR_STORE_DIR : string;
  (** [HuggingFaceEmbeddings(model_name="all-MiniLM-L6-v2", ...)]; the
      argument is the number of constructor calls made before this one, so
      that two attempts may end differently *)
  HuggingFaceEmbeddings : nat -> outcome embedder;
  (** [RecursiveCharacterTextSplitter(chunk_size, chunk_overlap,
      separators).split_text(text)] *)
  splitter_split_text : nat -> nat -> string -> outcome (list string);
  (** [FAISS.from_texts(chunks, embeddings)] *)
  FAISS_from_texts : list string -> embedder -> outcome index;
  (** [vector_store.save_local(path)] *)
  save_local : index -> string -> outcome unit;
  (** [store_path.exists()] *)
  path_exists : string -> bool;
  (** [FAISS.load_local(path, embeddings, allow_dangerous_deserialization=True)] *)
  FAISS_load_local : string -> embedder -> outcome index;
  (** [vector_store.similarity_search(query, k=k)], as the list of the
      [page_content] of the documents found *)
  similarity_search : index -> string -> nat -> outcome (list string);
  (** [client.chat.completions.create(model="sonar-pro", ...)] followed by
      [response.choices[0].message.content], for a user prompt and a system
      message *)
  chat_completions_create : string -> string -> outcome string;
  (** [json.loads] *)
  json_loads : string -> outcome value;
  (** [re.split(r'\n\s*---\s*\n|\f|\n\s*Page\s+\d+\s*\n', text,
      flags=re.IGNORECASE)] *)
  re_split_page_breaks : string -> outcome (list string);
  (** the order in which the event loop completes [n] tasks handed to
      [asyncio.gather], as positions in the argument list; every task
      completes once *)
  completion_order : nat -> list nat;
  completion_order_perm : forall n, Permutation (completion_order n) (seq 0 n)
}.

(** A use of the file system by the vector store functions. *)
Inductive fs_event : Type :=
| SaveLocal (path : string)
| PathExists (path : string)
| LoadLocal (path : string).

Definition fs_path (ev : fs_event) : string :=
  match ev with SaveLocal p | PathExists p | LoadLocal p => p end.

(** The mutable state of the process: the two module globals of the
    embedding singleton, and two histories kept for the statements below
    (they are written, never read, by the code): the number of calls of the
    [HuggingFaceEmbeddings] constructor and the file system uses. *)
Record process_state (embedder : Type) : Type := World {
  _embeddings : option embedder;
  _embeddings_init_attempted : bool;
  loader_calls : nat;
  fs_trace : list fs_event
}.
Arguments World {embedder}.
Arguments _embeddings {embedder}.
Arguments _embeddings_init_attempted {embedder}.
Arguments loader_calls {embedder}.
Arguments fs_trace {embedder}.

Section Effects.
Context `{E : Env}.

(** The state of a process that runs in the environment [E]. *)
Definition world : Type := process_state embedder.

(** The state of a freshly imported module. *)
Definition initial_world : world :=
  {| _embeddings := None; _embeddings_init_attempted := false;
     loader_calls := 0; fs_trace := [] |}.

(** Python code that reads and writes the globals and may raise. *)
Definition M (A : Type) : Type := world -> outcome A * world.

Definition mret {A} (a : A) : M A := fun w => (Ret a, w).

Definition mbind {A B} (m : M A) (k : A -> M B) : M B :=
  fun w =>
    match m w with
    | (Ret a, w') => k a w'
    | (Raise e, w') => (Raise e, w')
    end.

(** A call of a function of the environment. *)
Definition call {A} (o : outcome A) : M A := fun w => (o, w).

(** [try: body  except Exception as e: handler(e)]; what the body did to the
    globals before raising stays done. *)
Definition mtry {A} (body : M A) (handler : exception -> M A) : M A :=
  fun w =>
    match body w with
    | (Ret a, w') => (Ret a, w')
    | (Raise e, w') => handler e w'
    end.

Definition modify (f : world -> world) : M unit := fun w => (Ret tt, f w).
Definition read {A} (f : world -> A) : M A := fun w => (Ret (f w), w).

End Effects.

Declare Scope py_scope.
Delimit Scope py_scope with py.
Notation "x <- m ;; k" := (mbind m (fun x => k))
  (at level 100, m at next level, right associativity) : py_scope.
Notation "m ;; k" := (mbind m (fun _ => k))
  (at level 100, right associativity) : py_scope.
Notation "x <~ o ;; k" := (obind o (fun x => k))
  (at level 100, o at next level, right associativity) : py_scope.
#[local] Open Scope py_scope.

(** ** The embedding model, a lazily loaded singleton *)

Section EmbeddingModel.
Context `{E : Env}.

Definition set_attempted (w : world) : world :=
  {| _embeddings := _embeddings w; _embeddings_init_attempted := true;
     loader_calls := loader_calls w; fs_trace := fs_trace w |}.

Definition set_embeddings (emb : embedder) (w : world) : world :=
  {| _embeddings := Some emb;
     _embeddings_init_attempted := _embeddings_init_attempted w;
     loader_calls := loader_calls w; fs_trace := fs_trace w |}.

(** One call of the constructor [HuggingFaceEmbeddings(...)]. *)
Definition construct_embeddings : M embedder :=
  fun w =>
    (HuggingFaceEmbeddings (loader_calls w),
     {| _embeddings := _embeddings w;
        _embeddings_init_attempted := _embeddings_init_attempted w;
        loader_calls := S (loader_calls w); fs_trace := fs_trace w |}).

Definition get_embeddings : M (option embedder) :=
  cached <- read _embeddings ;;
  match cached with
  | Some emb => mret (Some emb)
  | None =>
      attempted <- read _embeddings_init_attempted ;;
      if attempted then mret None
      else
        (modify set_attempted ;;
         if negb HAS_EMBEDDINGS then mret None
         else
           mtry (emb <- construct_embeddings ;;
                 modify (set_embeddings emb) ;;
                 mret (Some emb))
                (fun _ => mret None))
  end.

(** The world after [n] successive calls of [get_embeddings]. *)
Fixpoint after_calls (n : nat) (w : world) : world :=
  match n with
  | O => w
  | S n' => after_calls n' (snd (get_embeddings w))
  end.

(** The call made in world [w] runs the constructor. *)
Definition loads_in (w : world) : bool :=
  negb (Nat.eqb (loader_calls (snd (get_embeddings w))) (loader_calls w)).

(** The single attempt at loading is behind. *)
Definition settled (w : world) : Prop :=
  _embeddings_init_attempted w = true /\ (loader_calls w <= 1)%nat.

End EmbeddingModel.

(** ** Text chunking and page segmentation *)

Section Chunking.
Context `{E : Env}.

Definition nonempty (s : string) : bool :=
  match s with "" => false | _ => true end.

Definition blank_line : string := Py.NL +:+ Py.NL.

(** One round of the paragraph packing loop that [chunk_text] and
    [segment_pages] both contain; the state is [(chunks, current)]. *)
Definition pack_step (limit : nat) (st : list string * string) (para : string)
    : list string * string :=
  let '(chunks, current) := st in
  if (Nat.ltb limit (Py.len current + Py.len para) && nonempty current)%bool
  then (chunks ++ [Py.strip current], para)
  else (chunks, if nonempty current then current +:+ blank_line +:+ para
                else para).

Definition pack_paragraphs (limit : nat) (text : string) : list string :=
  let paragraphs := Py.split_blank_line text in
  let '(chunks, current) := foldl (pack_step limit) ([], "") paragraphs in
  let chunks :=
    if nonempty (Py.strip current) then chunks ++ [Py.strip current]
    else chunks in
  match chunks with [] => [text] | _ => chunks end.

Definition chunk_text (text : string) (chunk_size chunk_overlap : nat)
    : outcome (list string) :=
  if (negb (nonempty text) || negb (nonempty (Py.strip text)))%bool then Ret []
  else
    try_except
      (if HAS_LANGCHAIN
       then splitter_split_text chunk_size chunk_overlap text
       else Ret (pack_paragraphs chunk_size text))
      (fun _ => Ret [text]).

Definition segment_pages (text : string) (max_chars_per_page : nat)
    : outcome (list string) :=
  if (negb (nonempty text) || negb (nonempty (Py.strip text)))%bool
  then Ret [text]
  else
    try_except
      (obind (re_split_page_breaks text) (fun pieces =>
         let pages :=
           map Py.strip (filter (fun p => nonempty (Py.strip p) = true) pieces) in
         if Nat.ltb 1 (length pages) then Ret pages
         else Ret (pack_paragraphs max_chars_per_page text)))
      (fun _ => Ret [text]).

End Chunking.

(** ** The FAISS vector store *)

Section VectorStore.
Context `{E : Env}.

(** The character class [[a-zA-Z0-9_\-]]. *)
Definition is_safe_char (c : ascii) : bool :=
  (Py.is_lower c || Py.is_upper c || Py.is_digit c
   || Ascii.eqb c "_" || Ascii.eqb c "-")%bool.

(** [re.sub(r'[^a-zA-Z0-9_\-]', '_', user_id)] *)
Definition sanitize_user_id (user_id : string) : string :=
  Py.map_chars (fun c => if is_safe_char c then c else "_"%char) user_id.

(** [str(base / part)] of [pathlib] for a relative [part] without
    separator: an empty part leaves the base unchanged, an absolute part
    replaces it. *)
Definition path_div (base part : string) : string :=
  match part with
  | "" => base
  | String c _ =>
      if Ascii.eqb c "/" then part else base +:+ "/" +:+ part
  end.

Definition log_fs (ev : fs_event) : M unit :=
  modify (fun w =>
    {| _embeddings := _embeddings w;
       _embeddings_init_attempted := _embeddings_init_attempted w;
       loader_calls := loader_calls w; fs_trace := fs_trace w ++ [ev] |}).

(** Every use of the file system that a call adds to the history is at the
    path of the sanitized user id. *)
Definition at_store_path (user_id : string) (w w' : world) : Prop :=
  exists evs,
    fs_trace w' = fs_trace w ++ evs
    /\ Forall (fun ev => fs_path ev
                 = path_div VECTOR_STORE_DIR (sanitize_user_id user_id)) evs.

Definition build_vector_store (text user_id : string) : M (option index) :=
  if negb HAS_FAISS then mret None
  else
    (embeddings <- get_embeddings ;;
     match embeddings with
     | None => mret None
     | Some emb =>
         mtry
           (chunks <- call (chunk_text text 1000 200) ;;
            match chunks with
            | [] => mret None
            | _ =>
                (built <- mtry (vs <- call (FAISS_from_texts chunks emb) ;;
                                mret (Some vs))
                               (fun _ => mret None) ;;
                 match built with
                 | None => mret None
                 | Some vector_store =>
                     (mtry
                        (let safe_user_id := sanitize_user_id user_id in
                         let store_path := path_div VECTOR_STORE_DIR safe_user_id in
                         (log_fs (SaveLocal store_path) ;;
                          call (save_local vector_store store_path)))
                        (fun _ => mret tt) ;;
                      mret (Some vector_store))
                 end)
            end)
           (fun _ => mret None)
     end).

Definition load_vector_store (user_id : string) : M (option index) :=
  if negb HAS_FAISS then mret None
  else
    (embeddings <- get_embeddings ;;
     match embeddings with
     | None => mret None
     | Some emb =>
         mtry
           (let safe_user_id := sanitize_user_id user_id in
            let store_path := path_div VECTOR_STORE_DIR safe_user_id in
            (log_fs (PathExists store_path) ;;
             if negb (path_exists store_path) then mret None
             else
               (log_fs (LoadLocal store_path) ;;
                vector_store <- call (FAISS_load_local store_path emb) ;;
                mret (Some vector_store))))
           (fun _ => mret None)
     end).

Definition context_separator : string :=
  blank_line +:+ "---" +:+ blank_line.

Definition retrieve_context (vector_store : option index) (query : string)
    (k : nat) : outcome string :=
  match vector_store with
  | None => Ret ""
  | Some vs =>
      try_except
        (obind (similarity_search vs query k) (fun docs =>
           Ret (Py.join context_separator docs)))
        (fun _ => Ret "")
  end.

End VectorStore.

(** ** Prompts and the Perplexity client *)

Section Prompts.
Context `{E : Env}.

Definition quoted (s : string) : string := Py.DQ +:+ s +:+ Py.DQ.
Definition lines (ls : list string) : string := Py.join Py.NL ls.

Definition audiences : gmap string string :=
  <["executive" := "Use very concise, high-level business language. Focus on ROI, strategic impact, and bottom-line results."]>
  (<["manager" := "Use clear, simple English (Grade 6 level). Focus on project progress, team impact, and actionable items."]>
  (<["client" := "Use professional but very simple language. Focus on deliverables, timelines, and value provided."]>
  (<["intern" := "Use the simplest possible language. Explain every concept as if the reader has no technical background."]>
   ∅))).

Definition get_audience_instructions (audience : string) : string :=
  default (audiences !!! "manager") (audiences !! Py.lower audience).

Definition build_simplification_prompt (page_text context : string)
    (page_number : Z) (audience : string) : string :=
  let audience_instructions := get_audience_instructions audience in
  let context_block :=
    if nonempty context then
      lines [ ""; "";
              "Here is additional relevant context retrieved from the document:";
              "---";
              Py.take 2000 context;
              "---";
              "" ]
    else "" in
  lines [
    "You are an expert business communication assistant.";
    "";
    "Task:";
    "Convert the following technical project update into a simplified executive summary.";
    "";
    "Audience: " +:+ Py.capitalize audience;
    audience_instructions;
    context_block;
    "Rules:";
    "- Use very simple English (Grade 6 level).";
    "- Avoid technical jargon.";
    "- Explain in a way that the target audience can understand.";
    "- Keep structure aligned with original content.";
    "- Provide a short heading for this section.";
    "- Add a brief explanation of key impact.";
    "- Suggest a relevant image idea for this section.";
    "- Output format must be valid JSON:";
    "";
    "{";
    "  " +:+ quoted "page_number" +:+ ": " +:+ Py.str_of_int page_number +:+ ",";
    "  " +:+ quoted "title" +:+ ": " +:+ quoted "..." +:+ ",";
    "  " +:+ quoted "simplified_text" +:+ ": " +:+ quoted "..." +:+ ",";
    "  " +:+ quoted "image_prompt" +:+ ": " +:+ quoted "...";
    "}";
    "";
    "Content to simplify:";
    "---";
    page_text;
    "---";
    "";
    "Respond ONLY with the JSON object, no other text." ].

Definition call_perplexity (prompt system_msg : string) : outcome string :=
  if negb HAS_OPENAI then Ret ""
  else if (negb (nonempty PERPLEXITY_API_KEY)
           || String.eqb PERPLEXITY_API_KEY "your_perplexity_api_key_here")%bool
  then Ret ""
  else
    try_except
      (obind (chat_completions_create prompt system_msg) (fun content =>
         Ret (Py.strip content)))
      (fun _ => Ret "").

End Prompts.

(** ** The response parser *)

Section ResponseParser.
Context `{E : Env}.

Definition fence : string := "```".

(** [re.sub(r'^```(?:json)?\s*', '', s)] *)
Definition strip_leading_fence (s : string) : string :=
  match Py.strip_prefix fence s with
  | Some rest =>
      Py.lstrip (default rest (Py.strip_prefix "json" rest))
  | None => s
  end.

(** [re.sub(r'\s*```$', '', s)]; [$] matches at the end of the string and
    also just before a line feed that ends the string. *)
Definition strip_trailing_fence (s : string) : string :=
  match Py.strip_suffix fence s with
  | Some before => Py.rstrip before
  | None =>
      match Py.strip_suffix (fence +:+ Py.NL) s with
      | Some before => Py.rstrip before +:+ Py.NL
      | None => s
      end
  end.

(** [re.search(r'\{[\s\S]*?\}', raw)], as the matched text: from the first
    opening brace to the first closing brace after it. *)
Definition search_braces (raw : string) : option string :=
  '(_, after_open) ← Py.find_char "{" raw;
  '(inside, _) ← Py.find_char "}" after_open;
  Some ("{" +:+ inside +:+ "}").

(** [result["page_number"] = page_number; return result]: item assignment
    with a string key works on a [dict] only. *)
Definition set_page_number (result : value) (page_number : Z)
    : outcome (gmap string value) :=
  match result with
  | VDict d => Ret (<["page_number" := VInt page_number]> d)
  | _ => Raise (TypeError "object does not support item assignment")
  end.

Definition raw_as_section (simplified_text : string) (page_number : Z)
    : gmap string value :=
  <["page_number" := VInt page_number]>
  (<["title" := VStr ("Section " +:+ Py.str_of_int page_number)]>
  (<["simplified_text" := VStr simplified_text]>
  (<["image_prompt" := VStr "A simple infographic summarizing the key points"]>
   ∅))).

(** The two substitutions that remove a Markdown code fence around the
    stripped response. *)
Definition strip_fences (raw : string) : string :=
  strip_trailing_fence (strip_leading_fence (Py.strip raw)).

Definition parse_llm_json (raw : string) (page_number : Z)
    : outcome (gmap string value) :=
  if negb (nonempty raw) then Ret ∅
  else
    let cleaned := strip_fences raw in
    match obind (json_loads cleaned) (fun result =>
            set_page_number result page_number) with
    | Ret result => Ret result
    | Raise e =>
        if is_JSONDecodeError e then
          match
            try_except
              (match search_braces raw with
               | Some json_match =>
                   obind (json_loads json_match) (fun result =>
                   obind (set_page_number result page_number) (fun result =>
                   Ret (Some result)))
               | None => Ret None
               end)
              (fun _ => Ret None)
          with
          | Ret (Some result) => Ret result
          | _ => Ret (raw_as_section (Py.take 1500 raw) page_number)
          end
        else
          Ret (raw_as_section
                 (if nonempty raw then Py.take 1500 raw
                  else "Processing error occurred.")
                 page_number)
    end.

(** [d] is the JSON object that the parser decodes from [raw]: the whole
    cleaned text is one, or it is not JSON and the first brace-delimited span
    of the raw text is one. *)
Definition decoded_object (raw : string) (d : gmap string value) : Prop :=
  json_loads (strip_fences raw) = Ret (VDict d)
  \/ exists msg span,
       json_loads (strip_fences raw) = Raise (JSONDecodeError msg)
       /\ search_braces raw = Some span
       /\ json_loads span = Ret (VDict d).

End ResponseParser.

(** ** The mock fallback *)

Section MockFallback.

Definition bullet : string := "•".
Definition pushpin : string := "📌".

(** The character class [[#\-*>\d.]]. *)
Definition is_markup_char (c : ascii) : bool :=
  (Ascii.eqb c "#" || Ascii.eqb c "-" || Ascii.eqb c "*" || Ascii.eqb c ">"
   || Py.is_digit c || Ascii.eqb c ".")%bool.

(** [re.sub(r'^[#\-*>\d.]+\s*', '', s)] *)
Definition strip_leading_markup (s : string) : string :=
  match s with
  | String c _ =>
      if is_markup_char c then Py.lstrip (Py.drop_while is_markup_char s)
      else s
  | "" => ""
  end.

(** The character class [[.!?]]. *)
Definition is_sentence_end (c : ascii) : bool :=
  (Ascii.eqb c "." || Ascii.eqb c "!" || Ascii.eqb c "?")%bool.

(** [[s.strip() for s in sentences[:n] if len(s.strip()) > m]] *)
Definition long_sentences (n m : nat) (sentences : list string) : list string :=
  map Py.strip
    (List.filter (fun s => Nat.ltb m (Py.len (Py.strip s))) (firstn n sentences)).

Definition mock_body (page_text : string) (page_number : Z) (audience : string)
    : gmap string value :=
  let text_lines := Py.split_char Py.nl (Py.strip page_text) in
  let title_line :=
    match text_lines with l :: _ => l | [] => "Section Summary" end in
  let title := Py.take 80 (strip_leading_markup title_line) in
  let title :=
    if nonempty title then title
    else "Section " +:+ Py.str_of_int page_number +:+ " Summary" in
  let sentences := Py.re_split_class is_sentence_end page_text in
  let key_sentences := long_sentences 5 20 sentences in
  let simplified :=
    "Here's what this section is about in simple terms:" +:+ blank_line in
  let simplified :=
    foldl (fun acc sent => acc +:+ bullet +:+ " " +:+ sent +:+ "." +:+ Py.NL)
          simplified key_sentences in
  let simplified :=
    match key_sentences with
    | [] => simplified +:+ bullet +:+ " " +:+ Py.take 300 page_text
              +:+ "..." +:+ Py.NL
    | _ => simplified
    end in
  let simplified :=
    simplified +:+ Py.NL +:+ pushpin +:+ " This section is written for a "
      +:+ audience +:+ " audience." in
  <["page_number" := VInt page_number]>
  (<["title" := VStr title]>
  (<["simplified_text" := VStr simplified]>
  (<["image_prompt" := VStr "A team collaboration infographic showing project milestones"]>
   ∅))).

Definition generate_mock_response (page_text : string) (page_number : Z)
    (audience : string) : outcome (gmap string value) :=
  try_except
    (Ret (mock_body page_text page_number audience))
    (fun _ =>
       Ret (<["page_number" := VInt page_number]>
            (<["title" := VStr ("Section " +:+ Py.str_of_int page_number)]>
            (<["simplified_text" := VStr "Could not process this section."]>
            (<["image_prompt" := VStr "A generic business infographic"]>
             ∅))))).

End MockFallback.

(** ** The main pipeline *)

Section Pipeline.
Context `{E : Env}.

(** [bool(d)] and [key in d] for a dictionary *)
Definition truthy (d : gmap string value) : bool := negb (Nat.eqb (size d) 0).
Definition has_key (key : string) (d : gmap string value) : bool :=
  match d !! key with Some _ => true | None => false end.

(** [{**base, **extra}]: the later entries win. *)
Definition spread (base extra : gmap string value) : gmap string value :=
  extra ∪ base.

Definition simplify_system_msg : string :=
  "You are a helpful assistant that simplifies technical documents. Always respond with valid JSON only.".

Definition simplify_page (page_text : string) (page_number : Z)
    (audience : string) (vector_store : option index)
    : outcome (gmap string value) :=
  try_except
    (context <~
       match vector_store with
       | Some _ =>
           try_except (retrieve_context vector_store page_text 4)
                      (fun _ => Ret "")
       | None => Ret ""
       end ;;
     let prompt :=
       build_simplification_prompt page_text context page_number audience in
     raw_response <~ call_perplexity prompt simplify_system_msg ;;
     accepted <~
       (if nonempty raw_response then
          result <~ parse_llm_json raw_response page_number ;;
          if (truthy result && has_key "simplified_text" result)%bool
          then Ret (Some result) else Ret None
        else Ret None) ;;
     match accepted with
     | Some result => Ret result
     | None => generate_mock_response page_text page_number audience
     end)
    (fun _ => generate_mock_response page_text page_number audience).

(** The text the model client returns for a page: the context lookup and
    the call that [simplify_page] makes, on their own. *)
Definition page_reply (page_text : string) (page_number : Z)
    (audience : string) (vector_store : option index) : outcome string :=
  context <~
    match vector_store with
    | Some _ =>
        try_except (retrieve_context vector_store page_text 4)
                   (fun _ => Ret "")
    | None => Ret ""
    end ;;
  call_perplexity
    (build_simplification_prompt page_text context page_number audience)
    simplify_system_msg.

(** The model path of a page fails: the client returns nothing, or what it
    returns is parsed to an object without [simplified_text]. *)
Definition model_path_fails (page_text : string) (page_number : Z)
    (audience : string) (vector_store : option index) : Prop :=
  page_reply page_text page_number audience vector_store = Ret ""
  \/ exists raw d,
       page_reply page_text page_number audience vector_store = Ret raw
       /\ parse_llm_json raw page_number = Ret d
       /\ has_key "simplified_text" d = false.

(** [asyncio.gather] with [return_exceptions=True]: each task's outcome is
    stored in the slot of its position as the task completes; the slots are
    read out in position order once all are filled. *)
Definition fill_slot {A} (tasks : list (outcome A))
    (slots : list (option (outcome A))) (i : nat) : list (option (outcome A)) :=
  match tasks !! i with
  | Some o => <[i := Some o]> slots
  | None => slots
  end.

Definition asyncio_gather {A} (tasks : list (outcome A)) : list (outcome A) :=
  let n := length tasks in
  omap id (foldl (fill_slot tasks) (replicate n None) (completion_order n)).

(** The loop over [enumerate(results)] of [process_document]; [i] is the
    position of the head of [results]. *)
Fixpoint collect_results (pages : list string) (audience : string) (i : nat)
    (results : list (outcome (gmap string value)))
    : outcome (list (gmap string value)) :=
  match results with
  | [] => Ret []
  | result :: rest =>
      item <~
        match result with
        | Raise _ =>
            match pages !! i with
            | Some page =>
                generate_mock_response page (Z.of_nat i + 1) audience
            | None => Raise (Exception "list index out of range")
            end
        | Ret r => Ret r
        end ;;
      others <~ collect_results pages audience (S i) rest ;;
      Ret (item :: others)
  end.

Fixpoint sequence {A} (os : list (outcome A)) : outcome (list A) :=
  match os with
  | [] => Ret []
  | o :: rest => a <~ o ;; others <~ sequence rest ;; Ret (a :: others)
  end.

Definition pages_object (pages : list (gmap string value)) : gmap string value :=
  {[ "pages" := VList (VDict <$> pages) ]}.

Definition process_document (text audience user_id : string)
    : M (gmap string value) :=
  vector_store <- mtry (build_vector_store text user_id)
                       (fun _ => mret None) ;;
  pages <- call (try_except (segment_pages text 3000) (fun _ => Ret [text])) ;;
  call
    (try_except
       (let tasks :=
          imap (fun i page =>
                  simplify_page page (Z.of_nat i + 1) audience vector_store)
               pages in
        let results := asyncio_gather tasks in
        final_results <~ collect_results pages audience 0 results ;;
        Ret (pages_object final_results))
       (fun _ =>
          mocks <~ sequence
            (map (fun i =>
                    generate_mock_response (default text (pages !! i))
                      (Z.of_nat i + 1) audience)
                 (seq 0 (length pages))) ;;
          Ret (pages_object mocks))).

End Pipeline.

(** ** Questions about a document *)

Section AskDocument.
Context `{E : Env}.

Definition ask_prompt (context_block question : string) : string :=
  lines [
    "You are an intelligent document assistant.";
    "";
    "The user has uploaded a document and is asking a question about it.";
    context_block;
    "User's Question: " +:+ question;
    "";
    "Instructions:";
    "- Answer the question based ONLY on the document content provided above.";
    "- If the answer is not in the document, say so clearly.";
    "- Be concise but thorough.";
    "- Use simple, clear language.";
    "";
    "Respond with a JSON object:";
    "{";
    "  " +:+ quoted "answer" +:+ ": " +:+ quoted "your detailed answer here" +:+ ",";
    "  " +:+ quoted "confidence" +:+ ": " +:+ quoted "high/medium/low" +:+ ",";
    "  " +:+ quoted "relevant_excerpt" +:+ ": "
      +:+ quoted "brief quote from the document that supports your answer";
    "}";
    "";
    "Respond ONLY with the JSON object." ].

Definition ask_context_block (context text : string) : string :=
  if nonempty context then
    lines [ "";
            "Here is the relevant context from the uploaded document:";
            "---"; Py.take 3000 context; "---"; "" ]
  else if nonempty text then
    lines [ ""; "Here is the document content:";
            "---"; Py.take 3000 text; "---"; "" ]
  else "".

Definition ask_system_msg : string :=
  "You are a helpful document Q&A assistant. Always respond with valid JSON only.".

Definition answer_object (success : bool) (answer : value)
    (confidence relevant_excerpt : string) : gmap string value :=
  <["success" := VBool success]>
  (<["answer" := answer]>
  (<["confidence" := VStr confidence]>
  (<["relevant_excerpt" := VStr relevant_excerpt]> ∅))).

Definition excerpt_answer (text : string) : string :=
  "Based on the document, here is what I found related to your question:"
    +:+ blank_line +:+ Py.take 500 text +:+ "..." +:+ blank_line
    +:+ "(Note: AI service returned no structured answer, showing document excerpt instead.)".

Definition ask_document (text question user_id : string)
    : M (gmap string value) :=
  mtry
    (vector_store <- mtry (build_vector_store text user_id)
                          (fun _ => mret None) ;;
     context <- call
       (match vector_store with
        | Some _ =>
            try_except (retrieve_context vector_store question 5)
                       (fun _ => Ret "")
        | None => Ret ""
        end) ;;
     let prompt := ask_prompt (ask_context_block context text) question in
     raw <- call (call_perplexity prompt ask_system_msg) ;;
     early <- call
       (if nonempty raw then
          result <~ parse_llm_json raw 1 ;;
          if (truthy result && has_key "answer" result)%bool then
            Ret (Some (spread {[ "success" := VBool true ]} result))
          else if (truthy result && has_key "simplified_text" result)%bool then
            Ret (Some (answer_object true (result !!! "simplified_text")
                         "medium" ""))
          else Ret None
        else Ret None) ;;
     match early with
     | Some answer => mret answer
     | None =>
         mret (answer_object true (VStr (excerpt_answer text)) "low"
                 (Py.take 200 text))
     end)
    (fun e =>
       mret (answer_object false
               (VStr ("An error occurred while processing your question: "
                      +:+ str_exc e))
               "low" "")).

End AskDocument.

(** ** One-paragraph summaries *)

Section SummarizeText.
Context `{E : Env}.

Definition summarize_prompt (text : string) : string :=
  lines [
    "You are a summarization expert.";
    "";
    "Summarize the following text into a clear, concise paragraph (3-5 sentences).";
    "Focus on the most important points.";
    "";
    "Text:";
    "---";
    Py.take 4000 text;
    "---";
    "";
    "Respond with a JSON object:";
    "{";
    "  " +:+ quoted "summary" +:+ ": "
      +:+ quoted "your concise summary paragraph here" +:+ ",";
    "  " +:+ quoted "word_count" +:+ ": <number of words in the summary>,";
    "  " +:+ quoted "key_topics" +:+ ": [" +:+ quoted "topic1" +:+ ", "
      +:+ quoted "topic2" +:+ ", " +:+ quoted "topic3" +:+ "]";
    "}";
    "";
    "Respond ONLY with the JSON object." ].

Definition summarize_system_msg : string :=
  "You are a summarization assistant. Always respond with valid JSON only.".

Definition summary_object (success : bool) (summary : value) (word_count : Z)
    : gmap string value :=
  <["success" := VBool success]>
  (<["summary" := summary]>
  (<["word_count" := VInt word_count]>
  (<["key_topics" := VList []]> ∅))).

(** [v.split()]: only a [str] has the method. *)
Definition split_method (v : value) : outcome (list string) :=
  match v with
  | VStr s => Ret (Py.split s)
  | _ => Raise (AttributeError "object has no attribute 'split'")
  end.

(** The extractive summary of the last resort. *)
Definition fallback_summary (text : string) : string :=
  let sentences := Py.re_split_class is_sentence_end text in
  let key := long_sentences 3 15 sentences in
  match key with
  | [] => Py.take 300 text
  | _ => Py.join ". " key +:+ "."
  end.

Definition summarize_text (text : string) : outcome (gmap string value) :=
  try_except
    (let prompt := summarize_prompt text in
     raw <~ call_perplexity prompt summarize_system_msg ;;
     early <~
       (if nonempty raw then
          result <~ parse_llm_json raw 1 ;;
          if (truthy result && has_key "summary" result)%bool then
            Ret (Some (spread {[ "success" := VBool true ]} result))
          else if (truthy result && has_key "simplified_text" result)%bool then
            words <~ split_method (result !!! "simplified_text") ;;
            Ret (Some (summary_object true (result !!! "simplified_text")
                         (Z.of_nat (length words))))
          else Ret None
        else Ret None) ;;
     match early with
     | Some summary => Ret summary
     | None =>
         let fallback := fallback_summary text in
         Ret (summary_object true (VStr fallback)
                (Z.of_nat (length (Py.split fallback))))
     end)
    (fun e =>
       Ret (summary_object false
              (VStr ("Summarization failed: " +:+ str_exc e)) 0)).

End SummarizeText.

(** ** Key point extraction *)

Section ExtractKeyPoints.
Context `{E : Env}.

Definition key_point_example (point : string) : string :=
  "    {" +:+ quoted "point" +:+ ": " +:+ quoted point +:+ ", "
    +:+ quoted "importance" +:+ ": " +:+ quoted "high/medium/low" +:+ "}".

Definition extract_prompt (doc_text : string) : string :=
  lines [
    "You are an expert analyst.";
    "";
    "Extract the key points and takeaways from the following document.";
    "";
    "Document:";
    "---";
    doc_text;
    "---";
    "";
    "Respond with a JSON object:";
    "{";
    "  " +:+ quoted "key_points" +:+ ": [";
    key_point_example "First key point" +:+ ",";
    key_point_example "Second key point";
    "  ],";
    "  " +:+ quoted "overall_theme" +:+ ": "
      +:+ quoted "One sentence describing the main theme" +:+ ",";
    "  " +:+ quoted "action_items" +:+ ": [" +:+ quoted "action 1" +:+ ", "
      +:+ quoted "action 2" +:+ "]";
    "}";
    "";
    "Extract 5-10 key points. Respond ONLY with the JSON object." ].

Definition extract_system_msg : string :=
  "You are a document analysis assistant. Always respond with valid JSON only.".

Definition key_point (point : string) : value :=
  VDict (<["point" := VStr point]> (<["importance" := VStr "medium"]> ∅)).

Definition extraction_object (success : bool) (key_points : list value)
    (overall_theme : string) : gmap string value :=
  <["success" := VBool success]>
  (<["key_points" := VList key_points]>
  (<["overall_theme" := VStr overall_theme]>
  (<["action_items" := VList []]> ∅))).

Definition fallback_points (text : string) : list value :=
  let sentences := Py.re_split_class is_sentence_end text in
  let points := map key_point (long_sentences 7 20 sentences) in
  match points with
  | [] => [key_point (Py.take 200 text)]
  | _ => points
  end.

Definition extract_key_points (text user_id : string)
    : M (gmap string value) :=
  mtry
    (vector_store <- mtry (build_vector_store text user_id)
                          (fun _ => mret None) ;;
     let doc_text := Py.take 5000 text in
     let prompt := extract_prompt doc_text in
     raw <- call (call_perplexity prompt extract_system_msg) ;;
     early <- call
       (if nonempty raw then
          result <~ parse_llm_json raw 1 ;;
          if (truthy result && has_key "key_points" result)%bool then
            Ret (Some (spread {[ "success" := VBool true ]} result))
          else Ret None
        else Ret None) ;;
     match early with
     | Some extraction => mret extraction
     | None =>
         mret (extraction_object true (fallback_points text)
                 "Document analysis")
     end)
    (fun e =>
       mret (extraction_object false [] ("Error: " +:+ str_exc e))).

End ExtractKeyPoints.

(** ** A concrete environment *)

(** A decoder for the JSON texts made of objects, arrays, strings with the
    one-character escapes, integers, [true], [false] and [null].  It stands
    in for [json.loads] in the worked examples; texts with fractions,
    exponents or [\u] escapes are outside its domain and are rejected. *)
Module Json.

Definition is_ws (c : ascii) : bool :=
  (Ascii.eqb c " " || Ascii.eqb c "009" || Ascii.eqb c "010" || Ascii.eqb c "013")%bool.

Definition skip_ws (s : string) : string := Py.drop_while is_ws s.

Definition unescape (c : ascii) : option ascii :=
  if Ascii.eqb c Py.dquote then Some Py.dquote
  else if Ascii.eqb c "\" then Some "\"%char
  else if Ascii.eqb c "/" then Some "/"%char
  else if Ascii.eqb c "n" then Some "010"%char
  else if Ascii.eqb c "t" then Some "009"%char
  else if Ascii.eqb c "r" then Some "013"%char
  else if Ascii.eqb c "b" then Some "008"%char
  else if Ascii.eqb c "f" then Some "012"%char
  else None.

(** The text of a string literal after its opening quote, and what follows
    the closing quote. *)
Fixpoint string_body (s : string) : option (string * string) :=
  match s with
  | "" => None
  | String c r =>
      if Ascii.eqb c Py.dquote then Some ("", r)
      else if Ascii.eqb c "\" then
        match r with
        | String e r' =>
            ch ← unescape e;
            '(body, rest) ← string_body r';
            Some (String ch body, rest)
        | "" => None
        end
      else if Nat.ltb (Py.code c) 32 then None
      else '(body, rest) ← string_body r; Some (String c body, rest)
  end.

Fixpoint digits (acc : Z) (s : string) : Z * string :=
  match s with
  | String c r =>
      if Py.is_digit c then digits (10 * acc + Z.of_nat (Py.code c - 48)) r
      else (acc, s)
  | "" => (acc, s)
  end.

(** An integer literal (an optional minus sign, then either a single zero or
    a nonzero digit and more digits) that no fraction or exponent follows. *)
Definition integer (s : string) : option (Z * string) :=
  let '(negative, s) :=
    match s with
    | String "-" r => (true, r)
    | _ => (false, s)
    end in
  match s with
  | String c r =>
      if Py.is_digit c then
        let '(n, rest) := if Ascii.eqb c "0" then (0, r) else digits 0 s in
        match rest with
        | String d _ =>
            if (Ascii.eqb d "." || Ascii.eqb d "e" || Ascii.eqb d "E")%bool
            then None
            else Some (if negative then - n else n, rest)
        | "" => Some (if negative then - n else n, rest)
        end
      else None
  | "" => None
  end.

(** The first JSON value of [s] and the text after it.  [fuel] bounds the
    nesting depth and the number of members of a container. *)
Fixpoint parse_value (fuel : nat) (s : string) : option (value * string) :=
  match fuel with
  | O => None
  | S fuel' =>
      let elements :=
        fix elements (k : nat) (acc : list value) (s : string)
            : option (value * string) :=
          match k with
          | O => None
          | S k' =>
              '(v, rest) ← parse_value fuel' s;
              match skip_ws rest with
              | String "," rest' => elements k' (acc ++ [v]) rest'
              | String "]" rest' => Some (VList (acc ++ [v]), rest')
              | _ => None
              end
          end in
      let members :=
        fix members (k : nat) (acc : gmap string value) (s : string)
            : option (value * string) :=
          match k with
          | O => None
          | S k' =>
              match skip_ws s with
              | String q after_quote =>
                  if Ascii.eqb q Py.dquote then
                    '(key, rest) ← string_body after_quote;
                    match skip_ws rest with
                    | String ":" rest' =>
                        '(v, rest'') ← parse_value fuel' rest';
                        match skip_ws rest'' with
                        | String "," rest3 => members k' (<[key := v]> acc) rest3
                        | String "}" rest3 => Some (VDict (<[key := v]> acc), rest3)
                        | _ => None
                        end
                    | _ => None
                    end
                  else None
              | "" => None
              end
          end in
      match skip_ws s with
      | "" => None
      | String c r =>
          if Ascii.eqb c "{" then
            match skip_ws r with
            | String "}" rest => Some (VDict ∅, rest)
            | _ => members fuel' ∅ r
            end
          else if Ascii.eqb c "[" then
            match skip_ws r with
            | String "]" rest => Some (VList [], rest)
            | _ => elements fuel' [] r
            end
          else if Ascii.eqb c Py.dquote then
            '(body, rest) ← string_body r; Some (VStr body, rest)
          else
            match Py.strip_prefix "true" (String c r),
                  Py.strip_prefix "false" (String c r),
                  Py.strip_prefix "null" (String c r) with
            | Some rest, _, _ => Some (VBool true, rest)
            | _, Some rest, _ => Some (VBool false, rest)
            | _, _, Some rest => Some (VNone, rest)
            | _, _, _ =>
                '(n, rest) ← integer (String c r); Some (VInt n, rest)
            end
      end
  end.

Definition loads (s : string) : outcome value :=
  match parse_value (S (Py.len s)) s with
  | Some (v, rest) =>
      match skip_ws rest with
      | "" => Ret v
      | _ => Raise (JSONDecodeError "Extra data")
      end
  | None => Raise (JSONDecodeError "Expecting value")
  end.

End Json.

(** An environment for the worked examples: every library is present, the
    embedding loader and the chat endpoint are given, FAISS keeps the chunks
    as they are, the page break pattern only meets form feeds (which is what
    it does on a text without [---] or [Page N] lines), and the event loop
    completes the tasks of a gather last to first. *)
Definition example_env (loader : nat -> outcome unit)
    (reply : string -> string -> outcome string) : Env :=
  {| embedder := unit;
     index := list string;
     HAS_LANGCHAIN := false;
     HAS_FAISS := true;
     HAS_EMBEDDINGS := true;
     HAS_OPENAI := true;
     PERPLEXITY_API_KEY := "pplx-0123456789";
     VECTOR_STORE_DIR := "/app/vector_stores";
     HuggingFaceEmbeddings := loader;
     splitter_split_text := fun _ _ text => Ret [text];
     FAISS_from_texts := fun chunks _ => Ret chunks;
     save_local := fun _ _ => Ret tt;
     path_exists := fun _ => false;
     FAISS_load_local := fun _ _ => Raise (Exception "index file not found");
     similarity_search := fun vs _ k => Ret (firstn k vs);
     chat_completions_create := reply;
     json_loads := Json.loads;
     re_split_page_breaks := fun text => Ret (Py.split_char "012" text);
     completion_order := fun n => reverse (seq 0 n);
     completion_order_perm := fun n => reverse_Permutation (seq 0 n) |}.

(** The endpoint is down: every call raises. *)
Definition endpoint_down : string -> string -> outcome string :=
  fun _ _ => Raise (Exception "Connection error.").

(** The loader cannot fetch the model: every call raises. *)
Definition loader_fails : nat -> outcome unit :=
  fun _ => Raise (Exception "Can't load the model all-MiniLM-L6-v2.").

Definition loader_works : nat -> outcome unit := fun _ => Ret tt.

(** A model that answers the first page of a document and times out on
    every other page. *)
Definition first_page_json : string :=
  "{" +:+ quoted "title" +:+ ": " +:+ quoted "Alpha" +:+ ", "
    +:+ quoted "simplified_text" +:+ ": " +:+ quoted "Alpha, made simple."
    +:+ "}".

Definition reply_first_page_only : string -> string -> outcome string :=
  fun prompt _ =>
    if Py.contains (quoted "page_number" +:+ ": 1,") prompt
    then Ret first_page_json
    else Raise (Exception "Request timed out.").

Definition two_pages : string :=
  "Alpha section." +:+ String "012" "Beta section.".

(** The reply of end-to-end scenario 3 and the JSON text inside its fence. *)
Definition summary_json : string :=
  "{" +:+ quoted "summary" +:+ ":" +:+ quoted "X" +:+ ","
    +:+ quoted "word_count" +:+ ":1," +:+ quoted "key_topics" +:+ ":[]}".

Definition fenced_summary : string :=
  "```json" +:+ Py.NL +:+ summary_json +:+ Py.NL +:+ "```".

(** The object that [summary_json] denotes. *)
Definition summary_x : gmap string value :=
  <["summary" := VStr "X"]>
  (<["word_count" := VInt 1]>
  (<["key_topics" := VList []]> ∅)).

(** A model that puts its answer under [simplified_text], and one that
    writes an [answer] and nothing else. *)
Definition simplified_only_json : string :=
  "{" +:+ quoted "simplified_text" +:+ ": " +:+ quoted "The launch is in May."
    +:+ "}".


(** ** Properties stated by the specification *)

(** The [word_count] of a summary object is the number of words of its
    [summary]. *)
Definition word_count_matches (r : gmap string value) : Prop :=
  exists s,
    r !! "summary" = Some (VStr s)
    /\ r !! "word_count" = Some (VInt (Z.of_nat (length (Py.split s)))).







Section BoundaryProperties.
Context `{E : Env}.



End BoundaryProperties.


(** A string matches the pattern [[A-Za-z0-9_-]+]: it is not empty and all
    its characters are in the class. *)
Definition matches_safe_id (s : string) : bool :=
  (nonempty s && Py.all_chars is_safe_char s)%bool.

(** The four keys of a simplified page. *)
Definition has_page_keys (d : gmap string value) : bool :=
  (has_key "page_number" d && has_key "title" d
   && has_key "simplified_text" d && has_key "image_prompt" d)%bool.


(** ** The request layer ([main.py]) *)

(** The request bodies, as the [pydantic] models declare them.  An
    [Optional[str]] field holds [None] when the client sends [null]. *)
Module ProcessRequest.
Record t : Type := Build {
  text : string;
  audience_level : option string;
  user_id : option string
}.
End ProcessRequest.

Module AskRequest.
Record t : Type := Build {
  text : string;
  question : string;
  user_id : option string
}.
End AskRequest.

Module SummarizeRequest.
Record t : Type := Build { text : string }.
End SummarizeRequest.

Module ExtractRequest.
Record t : Type := Build {
  text : string;
  user_id : option string
}.
End ExtractRequest.

(** What a handler hands to the framework: the body it returns, or the
    [HTTPException] it raises before its [try] block. *)
Inductive response : Type :=
| Responds (body : gmap string value)
| HTTPException (status_code : Z) (detail : string).

(** [user_id or "default"] *)
Definition or_default (user_id : option string) : string :=
  match user_id with
  | Some u => if nonempty u then u else "default"
  | None => "default"
  end.

(** [f"{audience}"] *)
Definition format_audience (audience : option string) : string :=
  default "None" audience.

(** A string that does not begin with white space. *)
Definition starts_clean (s : string) : bool :=
  match s with
  | "" => true
  | String c _ => negb (Py.is_space c)
  end.

(** A result that spreads the object [d] holds every entry of [d], [success]
    included, and [success] set to true when [d] has none. *)
Definition passes_through (d r : gmap string value) : Prop :=
  (forall key v, d !! key = Some v -> r !! key = Some v)
  /\ (d !! "success" = None -> r !! "success" = Some (VBool true))
  /\ dom r = dom d ∪ {[ "success" ]}.

(** The text of the fence that a model puts around a JSON reply, with the
    language tag [tag] ([json] or nothing). *)
Definition fenced (tag body : string) : string :=
  fence +:+ tag +:+ Py.NL +:+ body +:+ Py.NL +:+ fence.

Section RequestLayer.
Context `{E : Env}.

(** [simplify_page] as [process_document] calls it for a request: the
    audience is the request's [audience_level], which may be [None].  On
    [None] the call [audience.lower()] of [get_audience_instructions] raises
    [AttributeError] when the prompt is built, after the context lookup and
    before the model is called. *)
Definition simplify_page_req (page_text : string) (page_number : Z)
    (audience : option string) (vector_store : option index)
    : outcome (gmap string value) :=
  match audience with
  | Some a => simplify_page page_text page_number a vector_store
  | None =>
      try_except
        (context <~
           match vector_store with
           | Some _ =>
               try_except (retrieve_context vector_store page_text 4)
                          (fun _ => Ret "")
           | None => Ret ""
           end ;;
         Raise (AttributeError "'NoneType' object has no attribute 'lower'"))
        (fun _ => generate_mock_response page_text page_number "None")
  end.

(** [process_document] with the audience of a request. *)
Definition process_document_req (text : string) (audience : option string)
    (user_id : string) : M (gmap string value) :=
  vector_store <- mtry (build_vector_store text user_id)
                       (fun _ => mret None) ;;
  pages <- call (try_except (segment_pages text 3000) (fun _ => Ret [text])) ;;
  call
    (try_except
       (let tasks :=
          imap (fun i page =>
                  simplify_page_req page (Z.of_nat i + 1) audience vector_store)
               pages in
        let results := asyncio_gather tasks in
        final_results <~
          collect_results pages (format_audience audience) 0 results ;;
        Ret (pages_object final_results))
       (fun _ =>
          mocks <~ sequence
            (map (fun i =>
                    generate_mock_response (default text (pages !! i))
                      (Z.of_nat i + 1) (format_audience audience))
                 (seq 0 (length pages))) ;;
          Ret (pages_object mocks))).

Definition process_error_page (text : string) : gmap string value :=
  <["page_number" := VInt 1]>
  (<["title" := VStr "Summary"]>
  (<["simplified_text" :=
       VStr ("Processing error. Document excerpt:" +:+ blank_line
             +:+ Py.take 500 text)]>
  (<["image_prompt" := VStr "An error notification icon"]> ∅))).

Definition process_text_endpoint (request : ProcessRequest.t) : M response :=
  if negb (nonempty (Py.strip (ProcessRequest.text request))) then
    mret (HTTPException 400 "No text provided")
  else
    mtry
      (result <- process_document_req (ProcessRequest.text request)
                   (ProcessRequest.audience_level request)
                   (or_default (ProcessRequest.user_id request)) ;;
       mret (Responds result))
      (fun e =>
         mret (Responds
                 (pages_object
                    [process_error_page (ProcessRequest.text request)]))).

Definition ask_endpoint (request : AskRequest.t) : M response :=
  if negb (nonempty (Py.strip (AskRequest.text request))) then
    mret (HTTPException 400 "No document text provided")
  else if negb (nonempty (Py.strip (AskRequest.question request))) then
    mret (HTTPException 400 "No question provided")
  else
    mtry
      (result <- ask_document (AskRequest.text request)
                   (AskRequest.question request)
                   (or_default (AskRequest.user_id request)) ;;
       mret (Responds result))
      (fun e =>
         mret (Responds
                 (answer_object false (VStr ("Error: " +:+ str_exc e))
                    "low" ""))).

Definition summarize_endpoint (request : SummarizeRequest.t) : M response :=
  if negb (nonempty (Py.strip (SummarizeRequest.text request))) then
    mret (HTTPException 400 "No text provided")
  else
    mtry
      (result <- call (summarize_text (SummarizeRequest.text request)) ;;
       mret (Responds result))
      (fun e =>
         mret (Responds
                 (summary_object false (VStr ("Error: " +:+ str_exc e)) 0))).

Definition extract_endpoint (request : ExtractRequest.t) : M response :=
  if negb (nonempty (Py.strip (ExtractRequest.text request))) then
    mret (HTTPException 400 "No text provided")
  else
    mtry
      (result <- extract_key_points (ExtractRequest.text request)
                   (or_default (ExtractRequest.user_id request)) ;;
       mret (Responds result))
      (fun e =>
         mret (Responds
                 (extraction_object false [] ("Error: " +:+ str_exc e)))).

(** A request to one of the four endpoints, and the handler that serves
    it. *)
Inductive request : Type :=
| PostProcess (r : ProcessRequest.t)
| PostAsk (r : AskRequest.t)
| PostSummarize (r : SummarizeRequest.t)
| PostExtract (r : ExtractRequest.t).

Definition serve (req : request) : M response :=
  match req with
  | PostProcess r => process_text_endpoint r
  | PostAsk r => ask_endpoint r
  | PostSummarize r => summarize_endpoint r
  | PostExtract r => extract_endpoint r
  end.

(** The request is refused for a blank [text] (or a blank [question]). *)
Definition blank_request (req : request) : bool :=
  match req with
  | PostProcess r => negb (nonempty (Py.strip (ProcessRequest.text r)))
  | PostAsk r =>
      (negb (nonempty (Py.strip (AskRequest.text r)))
       || negb (nonempty (Py.strip (AskRequest.question r))))%bool
  | PostSummarize r => negb (nonempty (Py.strip (SummarizeRequest.text r)))
  | PostExtract r => negb (nonempty (Py.strip (ExtractRequest.text r)))
  end.

(** The call of the engine that the handler of [req] makes inside its
    [try]. *)
Definition engine_call (req : request) : M (gmap string value) :=
  match req with
  | PostProcess r =>
      process_document_req (ProcessRequest.text r)
        (ProcessRequest.audience_level r)
        (or_default (ProcessRequest.user_id r))
  | PostAsk r =>
      ask_document (AskRequest.text r) (AskRequest.question r)
        (or_default (AskRequest.user_id r))
  | PostSummarize r => call (summarize_text (SummarizeRequest.text r))
  | PostExtract r =>
      extract_key_points (ExtractRequest.text r)
        (or_default (ExtractRequest.user_id r))
  end.

(** The loader has not been tried and not been called, or its single
    attempt is behind. *)
Definition attempt_accounted (w : world) : Prop :=
  (_embeddings_init_attempted w = false /\ loader_calls w = 0%nat)
  \/ settled w.

(** A change of the world that a call of [build_vector_store] for [user_id]
    may make: saves at the store path of the user, the loader accounted for,
    a loaded model kept. *)
Definition step_ok (user_id : string) (w w' : world) : Prop :=
  (exists evs,
     fs_trace w' = fs_trace w ++ evs
     /\ Forall (fun ev => ev = SaveLocal (path_div VECTOR_STORE_DIR
                                            (sanitize_user_id user_id))) evs)
  /\ (attempt_accounted w -> attempt_accounted w')
  /\ (forall emb, _embeddings w = Some emb ->
        _embeddings w' = Some emb /\ loader_calls w' = loader_calls w).

(** The world after the requests [reqs] have been served one after the
    other.  The handlers change the globals and the disk in
    [build_vector_store] only, which runs without suspension before the first
    [await] of its flow: on the world, requests that overlap in time act as
    if served in some order. *)
Definition serve_all (reqs : list request) (w : world) : world :=
  foldl (fun w req => snd (serve req w)) w reqs.

(** A use of the file system that stays inside the vector store directory:
    it writes an index to a directory directly below it whose name is made of
    the characters [[A-Za-z0-9_-]] and is not empty. *)
Definition confined (ev : fs_event) : Prop :=
  exists name,
    matches_safe_id name = true
    /\ ev = SaveLocal (VECTOR_STORE_DIR +:+ "/" +:+ name).

End RequestLayer.

(** The example environment with a disk that refuses every write. *)
Definition read_only_disk_env (reply : string -> string -> outcome string)
    : Env :=
  {| embedder := unit;
     index := list string;
     HAS_LANGCHAIN := false;
     HAS_FAISS := true;
     HAS_EMBEDDINGS := true;
     HAS_OPENAI := true;
     PERPLEXITY_API_KEY := "pplx-0123456789";
     VECTOR_STORE_DIR := "/app/vector_stores";
     HuggingFaceEmbeddings := loader_works;
     splitter_split_text := fun _ _ text => Ret [text];
     FAISS_from_texts := fun chunks _ => Ret chunks;
     save_local := fun _ _ => Raise (Exception "Read-only file system");
     path_exists := fun _ => false;
     FAISS_load_local := fun _ _ => Raise (Exception "index file not found");
     similarity_search := fun vs _ k => Ret (firstn k vs);
     chat_completions_create := reply;
     json_loads := Json.loads;
     re_split_page_breaks := fun text => Ret (Py.split_char "012" text);
     completion_order := fun n => reverse (seq 0 n);
     completion_order_perm := fun n => reverse_Permutation (seq 0 n) |}.

(** * The string primitives on small inputs *)

Example strip_example :
  Py.strip (" " +:+ Py.NL +:+ " a b " +:+ Py.NL) = "a b"
  /\ Py.rstrip "  a b  " = "  a b"
  /\ Py.strip "   " = "".
Proof. repeat split. Qed.

Example split_example :
  Py.split " ab  c d " = ["ab"; "c"; "d"]
  /\ Py.split "" = []
  /\ Py.split_char "," ",a,,b" = [""; "a"; ""; "b"]
  /\ Py.split_blank_line ("a" +:+ Py.NL +:+ Py.NL +:+ Py.NL +:+ "b")
     = ["a"; Py.NL +:+ "b"].
Proof. repeat split. Qed.

Example re_split_example :
  Py.re_split_class is_sentence_end "a.b?!c." = ["a"; "b"; "c"; ""]
  /\ Py.re_split_class is_sentence_end "" = [""]
  /\ Py.re_split_class is_sentence_end ".a" = [""; "a"].
Proof. repeat split. Qed.

Example fence_example :
  strip_fences fenced_summary = summary_json
  /\ strip_leading_fence "```jsonx" = "x"
  /\ strip_trailing_fence "a ``` ```" = "a ```"
  /\ strip_trailing_fence ("x ```" +:+ Py.NL) = "x" +:+ Py.NL
  /\ search_braces "x{y{z}w}" = Some "{y{z}".
Proof. repeat split. Qed.

Example markup_example :
  strip_leading_markup "## 1. Title" = "1. Title"
  /\ strip_leading_markup "3.5 > x" = "> x"
  /\ Py.capitalize "mANAGER" = "Manager"
  /\ Py.str_of_int 12 = "12".
Proof. repeat split. Qed.

(** The decoder of the examples on a few texts. *)
Example json_example :
  Json.loads summary_json = Ret (VDict summary_x)
  /\ Json.loads "[1, true, null]" = Ret (VList [VInt 1; VBool true; VNone])
  /\ is_JSONDecodeError
       (match Json.loads "Sorry." with Raise e => e | Ret _ => Exception "" end)
     = true.
Proof. repeat split. Qed.

(** * Audience instructions *)

Lemma lower_char_idempotent (c : ascii) :
  Py.lower_char (Py.lower_char c) = Py.lower_char c.
Proof. destruct c as [[] [] [] [] [] [] [] []]; reflexivity. Qed.

Lemma lower_idempotent (s : string) : Py.lower (Py.lower s) = Py.lower s.
Proof.
  unfold Py.lower. induction s as [|c s IH]; [reflexivity|].
  cbn [Py.map_chars]. now rewrite lower_char_idempotent, IH.
Qed.

Lemma audiences_unknown (key : string) :
  key ∉ ["executive"; "manager"; "client"; "intern"] ->
  audiences !! key = None.
Proof.
  intros Hkey. unfold audiences.
  repeat (rewrite lookup_insert_ne;
          [|intros <-; apply Hkey; set_solver]).
  apply lookup_empty.
Qed.

(** C10. The audience lookup ignores case: the instructions for [audience]
    are those for its lowercase form, and a string whose lowercase form is
    none of executive, manager, client, intern gets the manager
    instructions. *)
Theorem audience_lookup_ignores_case (audience : string) :
  get_audience_instructions audience
    = get_audience_instructions (Py.lower audience)
  /\ (Py.lower audience ∉ ["executive"; "manager"; "client"; "intern"] ->
      get_audience_instructions audience
        = get_audience_instructions "manager"
      /\ get_audience_instructions audience
        = "Use clear, simple English (Grade 6 level). Focus on project progress, team impact, and actionable items.").
Proof.
  split.
  - unfold get_audience_instructions. now rewrite lower_idempotent.
  - intros Hkey. unfold get_audience_instructions.
    rewrite (audiences_unknown _ Hkey). split; reflexivity.
Qed.

Lemma audience_lookup_ignores_case_witness :
  get_audience_instructions "ExEcUtIvE" = get_audience_instructions "executive"
  /\ get_audience_instructions "Board"
     = "Use clear, simple English (Grade 6 level). Focus on project progress, team impact, and actionable items.".
Proof.
  split.
  - exact (proj1 (audience_lookup_ignores_case "ExEcUtIvE")).
  - apply (proj2 (audience_lookup_ignores_case "Board")).
    vm_compute. intros H. repeat (inversion H as [|? ? ? H']; clear H; rename H' into H).
Defined.

(** * The embedding singleton *)

Section EmbeddingFacts.
Context `{E : Env}.

(** What one call of [get_embeddings] does, by the state of the two
    globals. *)
Lemma get_embeddings_cached (w : world) (emb : embedder) :
  _embeddings w = Some emb -> get_embeddings w = (Ret (Some emb), w).
Proof. intros H. unfold get_embeddings, mbind, read, mret. now rewrite H. Qed.

Lemma get_embeddings_failed (w : world) :
  _embeddings w = None -> _embeddings_init_attempted w = true ->
  get_embeddings w = (Ret None, w).
Proof.
  intros H1 H2. unfold get_embeddings, mbind, read, mret. now rewrite H1, H2.
Qed.

Lemma get_embeddings_first (w : world) :
  _embeddings w = None -> _embeddings_init_attempted w = false ->
  let w' := snd (get_embeddings w) in
  _embeddings_init_attempted w' = true
  /\ (loader_calls w' <= S (loader_calls w))%nat
  /\ fs_trace w' = fs_trace w
  /\ exists r, fst (get_embeddings w) = Ret r /\ _embeddings w' = r.
Proof.
  intros H1 H2.
  unfold get_embeddings, mbind, mtry, read, mret, modify, construct_embeddings.
  rewrite H1, H2. cbn.
  destruct HAS_EMBEDDINGS; cbn.
  - destruct (HuggingFaceEmbeddings (loader_calls w)); cbn;
      repeat split; eauto.
  - repeat split; eauto.
Qed.

Lemma get_embeddings_returns (w : world) :
  exists r, fst (get_embeddings w) = Ret r.
Proof.
  destruct (_embeddings w) as [emb|] eqn:H1.
  - rewrite (get_embeddings_cached _ _ H1). eauto.
  - destruct (_embeddings_init_attempted w) eqn:H2.
    + rewrite (get_embeddings_failed _ H1 H2). eauto.
    + destruct (get_embeddings_first w H1 H2) as (_ & _ & _ & r & Hr & _).
      eauto.
Qed.

Lemma get_embeddings_fs_trace (w : world) :
  fs_trace (snd (get_embeddings w)) = fs_trace w.
Proof.
  destruct (_embeddings w) as [emb|] eqn:H1.
  - now rewrite (get_embeddings_cached _ _ H1).
  - destruct (_embeddings_init_attempted w) eqn:H2.
    + now rewrite (get_embeddings_failed _ H1 H2).
    + now destruct (get_embeddings_first w H1 H2) as (_ & _ & ? & _).
Qed.

Lemma get_embeddings_settled (w : world) :
  settled w ->
  settled (snd (get_embeddings w))
  /\ loader_calls (snd (get_embeddings w)) = loader_calls w.
Proof.
  intros [Ht Hc].
  destruct (_embeddings w) as [emb|] eqn:H1.
  - rewrite (get_embeddings_cached _ _ H1). now repeat split.
  - rewrite (get_embeddings_failed _ H1 Ht). now repeat split.
Qed.

Lemma after_first_call_settled :
  settled (snd (get_embeddings initial_world)).
Proof.
  destruct (get_embeddings_first initial_world eq_refl eq_refl)
    as (Ht & Hc & _).
  split; [exact Ht | exact Hc].
Qed.

Lemma after_calls_settled (n : nat) (w : world) :
  settled w -> settled (after_calls n w).
Proof.
  revert w. induction n as [|n IH]; intros w Hw; [exact Hw|].
  cbn [after_calls]. apply IH. now apply get_embeddings_settled.
Qed.

Lemma after_some_calls_settled (n : nat) :
  settled (after_calls (S n) initial_world).
Proof. cbn [after_calls]. apply after_calls_settled, after_first_call_settled. Qed.

Lemma settled_no_load (w : world) : settled w -> loads_in w = false.
Proof.
  intros Hw. unfold loads_in.
  destruct (get_embeddings_settled w Hw) as [_ ->].
  now rewrite Nat.eqb_refl.
Qed.

End EmbeddingFacts.

(** C5. The embedding model is loaded at most once in the life of a process.
    After any number of calls of [get_embeddings] the constructor has run at
    most once; if two calls of a run both reach the constructor they are the
    same call; and once an attempt is behind and no model is held, a call
    returns [None] and leaves the world as it is. *)
Theorem embeddings_initialized_at_most_once `{E : Env} :
  (forall n, (loader_calls (after_calls n initial_world) <= 1)%nat)
  /\ (forall i j,
        loads_in (after_calls i initial_world) = true ->
        loads_in (after_calls j initial_world) = true -> i = j)
  /\ (forall w,
        _embeddings_init_attempted w = true -> _embeddings w = None ->
        get_embeddings w = (Ret None, w)).
Proof.
  split; [|split].
  - intros [|n]; [cbn; lia|]. apply after_some_calls_settled.
  - intros [|i] [|j] Hi Hj; try reflexivity.
    + now rewrite (settled_no_load _ (after_some_calls_settled j)) in Hj.
    + now rewrite (settled_no_load _ (after_some_calls_settled i)) in Hi.
    + now rewrite (settled_no_load _ (after_some_calls_settled i)) in Hi.
  - intros w Ht He. now apply get_embeddings_failed.
Qed.

(** With a loader that always fails, five calls in a row run it once and the
    last four return [None] without touching the world. *)
Lemma embeddings_initialized_at_most_once_witness :
  let E := example_env loader_fails endpoint_down in
  (loader_calls (after_calls 5 initial_world) <= 1)%nat
  /\ loader_calls (after_calls 5 initial_world) = 1%nat
  /\ get_embeddings (after_calls 1 initial_world)
     = (Ret None, after_calls 1 initial_world).
Proof.
  intros E. split; [|split].
  - exact (proj1 (@embeddings_initialized_at_most_once E) 5%nat).
  - reflexivity.
  - apply (proj2 (proj2 (@embeddings_initialized_at_most_once E))); reflexivity.
Defined.

(** * The vector store and the user id *)

Section VectorStoreFacts.
Context `{E : Env}.

Lemma sanitize_safe (user_id : string) :
  Py.all_chars is_safe_char (sanitize_user_id user_id) = true.
Proof.
  unfold sanitize_user_id.
  induction user_id as [|c s IH]; [reflexivity|].
  cbn [Py.map_chars Py.all_chars]. rewrite IH, andb_true_r.
  destruct (is_safe_char c) eqn:Hc; [exact Hc | reflexivity].
Qed.

Lemma sanitize_length (user_id : string) :
  Py.len (sanitize_user_id user_id) = Py.len user_id.
Proof.
  unfold sanitize_user_id, Py.len.
  induction user_id as [|c s IH]; [reflexivity|].
  cbn [Py.map_chars String.length]. now rewrite IH.
Qed.

Lemma safe_char_no_separator (c : ascii) :
  is_safe_char c = true -> c <> "/"%char /\ c <> "."%char /\ c <> "\"%char.
Proof. intros H. repeat split; intros ->; discriminate H. Qed.

Lemma at_store_path_nil (user_id : string) (w w' : world) :
  fs_trace w' = fs_trace w -> at_store_path user_id w w'.
Proof. intros H. exists []. now rewrite app_nil_r. Qed.

Lemma build_vector_store_returns (text user_id : string) (w : world) :
  exists r w',
    build_vector_store text user_id w = (Ret r, w')
    /\ at_store_path user_id w w'.
Proof.
  unfold build_vector_store.
  destruct HAS_FAISS; cbn [negb];
    [|do 2 eexists; split; [reflexivity | now apply at_store_path_nil]].
  unfold mbind at 1.
  pose proof (get_embeddings_returns w) as [r Hr].
  pose proof (get_embeddings_fs_trace w) as Htr.
  destruct (get_embeddings w) as [o w1]. cbn in Hr, Htr. subst o.
  destruct r as [emb|];
    [|do 2 eexists; split; [reflexivity | now apply at_store_path_nil]].
  unfold mtry, mbind, call, mret, log_fs, modify.
  destruct (chunk_text text 1000 200) as [[|c chunks]|e];
    try (do 2 eexists; split; [reflexivity | now apply at_store_path_nil]).
  destruct (FAISS_from_texts (c :: chunks) emb) as [vs|e];
    [|do 2 eexists; split; [reflexivity | now apply at_store_path_nil]].
  destruct (save_local vs _) as [[]|e];
    (do 2 eexists; split; [reflexivity|];
     eexists [_]; cbn; rewrite Htr; split; [reflexivity|];
     repeat constructor).
Qed.

Lemma load_vector_store_returns (user_id : string) (w : world) :
  exists r w',
    load_vector_store user_id w = (Ret r, w')
    /\ at_store_path user_id w w'.
Proof.
  unfold load_vector_store.
  destruct HAS_FAISS; cbn [negb];
    [|do 2 eexists; split; [reflexivity | now apply at_store_path_nil]].
  unfold mbind at 1.
  pose proof (get_embeddings_returns w) as [r Hr].
  pose proof (get_embeddings_fs_trace w) as Htr.
  destruct (get_embeddings w) as [o w1]. cbn in Hr, Htr. subst o.
  destruct r as [emb|];
    [|do 2 eexists; split; [reflexivity | now apply at_store_path_nil]].
  unfold mtry, mbind, call, mret, log_fs, modify.
  destruct (path_exists _); cbn [negb].
  - destruct (FAISS_load_local _ emb) as [vs|e];
      (do 2 eexists; split; [reflexivity|];
       eexists [_; _]; cbn; rewrite Htr, <- app_assoc; split; [reflexivity|];
       repeat constructor).
  - do 2 eexists; split; [reflexivity|].
    eexists [_]; cbn; rewrite Htr; split; [reflexivity|]; repeat constructor.
Qed.

End VectorStoreFacts.

(** C6, as the code has it.  Sanitizing a user id replaces every character
    outside [[A-Za-z0-9_-]] by an underscore and keeps the others: the result
    has the length of the input, all its characters are in the class (none is
    a path separator or a dot), and it matches [[A-Za-z0-9_-]+] exactly when
    the input is not empty.  [build_vector_store] and [load_vector_store]
    touch the file system only at [VECTOR_STORE_DIR / sanitized id]. *)
Theorem user_id_sanitized_before_path_use `{E : Env}
    (text user_id : string) (w : world) :
  Py.all_chars is_safe_char (sanitize_user_id user_id) = true
  /\ Py.len (sanitize_user_id user_id) = Py.len user_id
  /\ (forall c s, sanitize_user_id (String c s)
        = String (if is_safe_char c then c else "_"%char) (sanitize_user_id s))
  /\ Py.all_chars (fun c => negb (Ascii.eqb c "/" || Ascii.eqb c "."))
       (sanitize_user_id user_id) = true
  /\ matches_safe_id (sanitize_user_id user_id) = nonempty user_id
  /\ at_store_path user_id w (snd (build_vector_store text user_id w))
  /\ at_store_path user_id w (snd (load_vector_store user_id w)).
Proof.
  repeat split.
  - apply sanitize_safe.
  - apply sanitize_length.
  - pose proof (sanitize_safe user_id) as H. revert H.
    generalize (sanitize_user_id user_id) as s.
    induction s as [|c s IH]; [reflexivity|].
    cbn [Py.all_chars]. intros [Hc Hs]%andb_prop.
    rewrite (IH Hs), andb_true_r.
    destruct (safe_char_no_separator c Hc) as (H1 & H2 & _).
    apply Ascii.eqb_neq in H1, H2. now rewrite H1, H2.
  - unfold matches_safe_id. rewrite sanitize_safe, andb_true_r.
    now destruct user_id.
  - destruct (build_vector_store_returns text user_id w) as (r & w' & -> & H).
    exact H.
  - destruct (load_vector_store_returns user_id w) as (r & w' & -> & H).
    exact H.
Qed.

(** The empty user id is sanitized to the empty string, which the pattern
    [[A-Za-z0-9_-]+] does not match; the store path is then the vector store
    directory itself. *)
Lemma empty_user_id_not_matched :
  let E := example_env loader_works endpoint_down in
  sanitize_user_id "" = ""
  /\ matches_safe_id (sanitize_user_id "") = false
  /\ fs_trace (snd (build_vector_store "Quarterly report." "" initial_world))
     = [SaveLocal "/app/vector_stores"].
Proof. repeat split. Qed.

(** A traversal attempt ends up as a plain name below the store directory. *)
Example traversal_neutralised :
  let E := example_env loader_works endpoint_down in
  sanitize_user_id "../../etc/passwd" = "______etc_passwd"
  /\ fs_trace (snd (build_vector_store "Quarterly report."
                      "../../etc/passwd" initial_world))
     = [SaveLocal "/app/vector_stores/______etc_passwd"].
Proof. repeat split. Qed.

(** * The response parser *)

Section ParserFacts.
Context `{E : Env}.

Lemma nonempty_true (s : string) : s <> "" -> nonempty s = true.
Proof. now destruct s. Qed.

Lemma raw_as_section_keys (text : string) (n : Z) :
  has_page_keys (raw_as_section text n) = true
  /\ raw_as_section text n !! "page_number" = Some (VInt n)
  /\ raw_as_section text n !! "simplified_text" = Some (VStr text).
Proof. repeat split. Qed.

(** The three ways a non-empty response is parsed. *)
Lemma parse_llm_json_cases (raw : string) (n : Z) :
  raw <> "" ->
  (exists d, decoded_object raw d
             /\ parse_llm_json raw n = Ret (<["page_number" := VInt n]> d))
  \/ parse_llm_json raw n = Ret (raw_as_section (Py.take 1500 raw) n).
Proof.
  intros Hraw. unfold parse_llm_json, decoded_object.
  rewrite (nonempty_true _ Hraw). cbn [negb].
  destruct (json_loads (strip_fences raw)) as [v|e] eqn:Hv; cbn [obind].
  - destruct v; cbn [set_page_number]; try (right; reflexivity).
    left. eauto.
  - destruct e; cbn [is_JSONDecodeError]; try (right; reflexivity).
    destruct (search_braces raw) as [span|] eqn:Hs;
      [|right; reflexivity].
    destruct (json_loads span) as [v|e] eqn:Hspan; cbn;
      [|right; reflexivity].
    destruct v; cbn; try (right; reflexivity).
    left. eexists. split; [right; eauto|reflexivity].
Qed.

Lemma parse_llm_json_decoded (raw : string) (n : Z) (d : gmap string value) :
  raw <> "" -> decoded_object raw d ->
  parse_llm_json raw n = Ret (<["page_number" := VInt n]> d).
Proof.
  intros Hraw Hd. unfold parse_llm_json.
  rewrite (nonempty_true _ Hraw). cbn [negb].
  destruct Hd as [Hd | (msg & span & Hc & Hs & Hd)].
  - now rewrite Hd.
  - rewrite Hc. cbn. now rewrite Hs, Hd.
Qed.

Lemma parse_llm_json_returns (raw : string) (n : Z) :
  exists d, parse_llm_json raw n = Ret d.
Proof.
  destruct raw as [|c raw]; [now exists ∅|].
  destruct (parse_llm_json_cases (String c raw) n) as [(d & _ & ->)| ->];
    [discriminate|eauto..].
Qed.

Lemma parse_llm_json_page_number (raw : string) (n : Z) (d : gmap string value) :
  raw <> "" -> parse_llm_json raw n = Ret d ->
  d !! "page_number" = Some (VInt n).
Proof.
  intros Hraw Hd.
  destruct (parse_llm_json_cases raw n Hraw) as [(d0 & _ & H)|H];
    rewrite H in Hd; injection Hd as <-.
  - apply lookup_insert_eq.
  - apply raw_as_section_keys.
Qed.

End ParserFacts.

(** C2, as the code has it.  [parse_llm_json] is total: for every string and
    page number it returns an object and raises nothing.  For the empty
    string the object is empty.  For any other string the object maps
    [page_number] to the given number, and it is either a JSON object decoded
    from the text with [page_number] set (whatever other keys the model
    wrote), or the fallback object, which has the four keys [page_number],
    [title], [simplified_text], [image_prompt] and carries the first 1500
    characters of the input. *)
Theorem parse_llm_json_total `{E : Env} (raw : string) (n : Z) :
  exists d,
    parse_llm_json raw n = Ret d
    /\ (raw = "" -> d = ∅)
    /\ (raw <> "" ->
        d !! "page_number" = Some (VInt n)
        /\ ((exists d0, decoded_object raw d0
                        /\ d = <["page_number" := VInt n]> d0)
            \/ (d = raw_as_section (Py.take 1500 raw) n
                /\ has_page_keys d = true
                /\ d !! "simplified_text" = Some (VStr (Py.take 1500 raw))))).
Proof.
  destruct (parse_llm_json_returns raw n) as [d Hd]. exists d.
  split; [exact Hd|]. split.
  - intros ->. cbn in Hd. now injection Hd as <-.
  - intros Hraw. split; [now apply (parse_llm_json_page_number raw)|].
    destruct (parse_llm_json_cases raw n Hraw) as [(d0 & H0 & H)|H];
      rewrite H in Hd; injection Hd as <-.
    + left. eauto.
    + right. split; [reflexivity|]. split; apply raw_as_section_keys.
Qed.

(** Garbage is wrapped into a full page object; an empty reply is not. *)
Lemma parse_llm_json_total_witness :
  let E := example_env loader_works endpoint_down in
  exists d,
    parse_llm_json "Sorry, I cannot help with that." 3 = Ret d
    /\ has_page_keys d = true
    /\ d !! "simplified_text" = Some (VStr "Sorry, I cannot help with that.").
Proof.
  intros E.
  destruct (@parse_llm_json_total E "Sorry, I cannot help with that." 3)
    as (d & Hd & _ & Hfull).
  exists d. split; [exact Hd|].
  destruct (Hfull ltac:(discriminate)) as [_ [(d0 & Hdec & _)|(_ & Hk & Ht)]].
  - exfalso. destruct Hdec as [H|(msg & span & _ & H & _)]; discriminate H.
  - split; [exact Hk | exact Ht].
Defined.

(** The empty string is parsed to the empty object, and the text of an empty
    JSON object to an object with [page_number] alone: neither has a
    [title], a [simplified_text] or an [image_prompt]. *)
Lemma parse_llm_json_empty_reply :
  let E := example_env loader_works endpoint_down in
  parse_llm_json "" 1 = Ret ∅
  /\ has_page_keys ∅ = false
  /\ parse_llm_json "{}" 1 = Ret {[ "page_number" := VInt 1 ]}
  /\ has_page_keys {[ "page_number" := VInt 1 ]} = false.
Proof. repeat split. Qed.

(** * The page pipeline *)

Section PipelineFacts.
Context `{E : Env}.

Lemma call_perplexity_returns (prompt system_msg : string) :
  exists raw, call_perplexity prompt system_msg = Ret raw.
Proof.
  unfold call_perplexity.
  destruct HAS_OPENAI; cbn [negb]; [|eauto].
  destruct (_ || _)%bool; [eauto|].
  destruct (chat_completions_create prompt system_msg); cbn; eauto.
Qed.

(** The ways the client is unavailable: no [openai] library, no key or the
    placeholder key, or a failing request. *)
Lemma call_perplexity_unavailable (prompt system_msg : string) :
  HAS_OPENAI = false
  \/ PERPLEXITY_API_KEY = ""
  \/ PERPLEXITY_API_KEY = "your_perplexity_api_key_here"
  \/ (exists e, chat_completions_create prompt system_msg = Raise e) ->
  call_perplexity prompt system_msg = Ret "".
Proof.
  unfold call_perplexity.
  intros [-> | [-> | [-> | [e He]]]].
  - reflexivity.
  - now destruct HAS_OPENAI.
  - now destruct HAS_OPENAI.
  - destruct HAS_OPENAI; [|reflexivity]. cbn [negb].
    destruct (_ || _)%bool; [reflexivity|]. now rewrite He.
Qed.

Lemma retrieve_context_returns (vs : option index) (query : string) (k : nat) :
  exists context, retrieve_context vs query k = Ret context.
Proof.
  destruct vs as [vs|]; cbn; [|eauto].
  destruct (similarity_search vs query k); cbn; eauto.
Qed.

Lemma generate_mock_response_eq (page : string) (n : Z) (audience : string) :
  generate_mock_response page n audience = Ret (mock_body page n audience).
Proof. reflexivity. Qed.

Lemma mock_body_keys (page : string) (n : Z) (audience : string) :
  has_page_keys (mock_body page n audience) = true
  /\ mock_body page n audience !! "page_number" = Some (VInt n).
Proof. split; reflexivity. Qed.

Lemma page_reply_returns (page : string) (n : Z) (audience : string)
    (vs : option index) :
  exists raw, page_reply page n audience vs = Ret raw.
Proof.
  unfold page_reply. destruct vs as [vs|]; cbn [obind].
  - destruct (retrieve_context_returns (Some vs) page 4) as [c ->]. cbn.
    apply call_perplexity_returns.
  - apply call_perplexity_returns.
Qed.

(** [simplify_page] in terms of the client's reply. *)
Lemma simplify_page_reply (page : string) (n : Z) (audience : string)
    (vs : option index) (raw : string) :
  page_reply page n audience vs = Ret raw ->
  simplify_page page n audience vs =
    Ret (if nonempty raw then
           match parse_llm_json raw n with
           | Ret d =>
               if (truthy d && has_key "simplified_text" d)%bool then d
               else mock_body page n audience
           | Raise _ => mock_body page n audience
           end
         else mock_body page n audience).
Proof.
  unfold page_reply, simplify_page. intros Hreply.
  destruct (match vs with Some _ => _ | None => _ end) as [context|e];
    cbn [obind] in *; [|discriminate].
  rewrite Hreply. cbn [obind].
  destruct (nonempty raw); [|reflexivity].
  destruct (parse_llm_json_returns raw n) as [d ->]. cbn [obind].
  now destruct (truthy d && has_key "simplified_text" d)%bool.
Qed.

Lemma simplify_page_returns (page : string) (n : Z) (audience : string)
    (vs : option index) :
  exists r,
    simplify_page page n audience vs = Ret r
    /\ r !! "page_number" = Some (VInt n)
    /\ has_key "simplified_text" r = true
    /\ (model_path_fails page n audience vs -> r = mock_body page n audience).
Proof.
  destruct (page_reply_returns page n audience vs) as [raw Hraw].
  rewrite (simplify_page_reply _ _ _ _ _ Hraw).
  eexists. split; [reflexivity|].
  destruct raw as [|c raw]; cbn [nonempty].
  { repeat split. }
  destruct (parse_llm_json_returns (String c raw) n) as [d Hd]. rewrite Hd.
  destruct (truthy d && has_key "simplified_text" d)%bool eqn:Hok.
  - apply andb_prop in Hok as [_ Hkey]. split; [|split].
    + now apply (parse_llm_json_page_number (String c raw)).
    + exact Hkey.
    + intros [Hfail|(raw' & d' & Hr & Hp & Hk)].
      * rewrite Hraw in Hfail. discriminate.
      * rewrite Hraw in Hr. injection Hr as <-.
        rewrite Hd in Hp. injection Hp as <-. congruence.
  - repeat split.
Qed.

(** The slots of a gather, after the tasks at the positions [sched] have
    completed. *)
Lemma fill_slots_lookup {A} (tasks : list (outcome A)) (sched : list nat)
    (slots : list (option (outcome A))) (i : nat) :
  length slots = length tasks ->
  foldl (fill_slot tasks) slots sched !! i =
    match tasks !! i with
    | Some o => if decide (i ∈ sched) then Some (Some o) else slots !! i
    | None => slots !! i
    end.
Proof.
  revert slots. induction sched as [|j sched IH]; intros slots Hlen.
  - cbn. destruct (tasks !! i); [|reflexivity].
    destruct (decide (i ∈ [])) as [Hin|]; [|reflexivity].
    now apply elem_of_nil in Hin.
  - cbn [foldl]. rewrite IH.
    2:{ unfold fill_slot. destruct (tasks !! j); [|exact Hlen].
        now rewrite length_insert. }
    unfold fill_slot.
    destruct (tasks !! i) as [o|] eqn:Hi.
    + destruct (decide (i ∈ sched)) as [Hin|Hnin].
      * rewrite decide_True; [reflexivity | now right].
      * destruct (decide (i = j)) as [->|Hne].
        -- rewrite Hi, decide_True by now left.
           apply list_lookup_insert_eq. rewrite Hlen.
           now apply lookup_lt_Some in Hi.
        -- rewrite decide_False.
           2:{ intros [?|?]%elem_of_cons; contradiction. }
           destruct (tasks !! j); [|reflexivity].
           now apply list_lookup_insert_ne.
    + destruct (tasks !! j) eqn:Hj; [|reflexivity].
      apply list_lookup_insert_ne. intros ->. congruence.
Qed.

Lemma omap_id_Some {A} (l : list A) : omap id (Some <$> l) = l.
Proof. induction l as [|x l IH]; [reflexivity|]. cbn. now f_equal. Qed.

(** A gather hands back the outcomes in the order of its arguments, in
    whatever order the tasks complete. *)
Lemma asyncio_gather_in_order {A} (tasks : list (outcome A)) :
  asyncio_gather tasks = tasks.
Proof.
  unfold asyncio_gather.
  transitivity (omap id (Some <$> tasks)); [|apply omap_id_Some].
  f_equal. apply list_eq. intros i.
  rewrite fill_slots_lookup by now rewrite length_replicate.
  rewrite list_lookup_fmap.
  destruct (tasks !! i) as [o|] eqn:Hi; cbn.
  - rewrite decide_True; [reflexivity|].
    rewrite (completion_order_perm (length tasks)).
    apply elem_of_seq. apply lookup_lt_Some in Hi. lia.
  - apply lookup_replicate_None. now apply lookup_ge_None.
Qed.

(** The loop that replaces the raised outcomes by the mock of their page. *)
Lemma collect_results_spec (pages : list string) (audience : string)
    (gathered : list (outcome (gmap string value))) (i : nat) :
  (i + length gathered <= length pages)%nat ->
  exists final,
    collect_results pages audience i gathered = Ret final
    /\ length final = length gathered
    /\ forall k o page,
         gathered !! k = Some o -> pages !! (i + k)%nat = Some page ->
         final !! k =
           Some (match o with
                 | Ret r => r
                 | Raise _ => mock_body page (Z.of_nat (i + k) + 1) audience
                 end).
Proof.
  revert i. induction gathered as [|o gathered IH]; intros i Hlen.
  - exists []. repeat split. intros k ? ? Hk. discriminate Hk.
  - cbn [length] in Hlen.
    destruct (IH (S i) ltac:(lia)) as (rest & Hrest & Hlen' & Hlook).
    destruct (lookup_lt_is_Some_2 pages i ltac:(lia)) as [page_i Hpage].
    cbn [collect_results]. rewrite Hpage, Hrest.
    exists ((match o with
             | Ret r => r
             | Raise _ => mock_body page_i (Z.of_nat i + 1) audience
             end) :: rest).
    split; [now destruct o|]. split; [cbn; now rewrite Hlen'|].
    intros [|k] o' page Hk Hp; cbn in Hk.
    + injection Hk as <-. rewrite Nat.add_0_r in Hp.
      rewrite Hpage in Hp. injection Hp as <-.
      now rewrite Nat.add_0_r.
    + cbn. replace (i + S k)%nat with (S i + k)%nat in * by lia.
      now apply Hlook.
Qed.

End PipelineFacts.

(** * The four flows in terms of the client's reply *)

Section FlowFacts.
Context `{E : Env}.

Lemma take_drop (n : nat) (s : string) : s = Py.take n s +:+ Py.drop n s.
Proof.
  revert s. induction n as [|n IH]; intros [|c s]; try reflexivity.
  change (String c s = String c (Py.take n s +:+ Py.drop n s)).
  f_equal. apply IH.
Qed.

Lemma truthy_lookup (d : gmap string value) (key : string) (v : value) :
  d !! key = Some v -> truthy d = true.
Proof.
  intros Hk. unfold truthy.
  destruct (size d) eqn:Hsize; [|reflexivity].
  apply map_size_empty_iff in Hsize. subst d.
  now rewrite lookup_empty in Hk.
Qed.

Lemma has_key_truthy (d : gmap string value) (key : string) :
  has_key key d = true -> truthy d = true.
Proof.
  unfold has_key. destruct (d !! key) eqn:Hk; [|discriminate].
  intros _. eapply truthy_lookup, Hk.
Qed.

Lemma mtry_ret {A} (body : M A) (handler : exception -> M A) (w w' : world)
    (a : A) :
  body w = (Ret a, w') -> mtry body handler w = (Ret a, w').
Proof. intros H. unfold mtry. now rewrite H. Qed.

Lemma mbind_ret {A B} (m : M A) (k : A -> M B) (w w' : world) (a : A) :
  m w = (Ret a, w') -> mbind m k w = k a w'.
Proof. intros H. unfold mbind. now rewrite H. Qed.

Lemma parse_empty_reply (n : Z) : parse_llm_json "" n = Ret ∅.
Proof. reflexivity. Qed.

Lemma build_vector_store_guarded (text user_id : string) (w : world) :
  exists vs w',
    mtry (build_vector_store text user_id) (fun _ => mret None) w = (Ret vs, w')
    /\ build_vector_store text user_id w = (Ret vs, w').
Proof.
  destruct (build_vector_store_returns text user_id w) as (vs & w' & H & _).
  exists vs, w'. unfold mtry. now rewrite H.
Qed.

(** The segmentation never raises. *)
Lemma segment_pages_returns (text : string) (limit : nat) :
  exists pages, segment_pages text limit = Ret pages.
Proof.
  unfold segment_pages.
  destruct (_ || _)%bool; [eauto|].
  destruct (re_split_page_breaks text) as [pieces|e]; cbn; [|eauto].
  match goal with |- context [if ?b then _ else _] => destruct b end; eauto.
Qed.

Lemma process_document_pages (text audience user_id : string) (w : world)
    (pages : list string) :
  segment_pages text 3000 = Ret pages ->
  exists vs w' results,
    build_vector_store text user_id w = (Ret vs, w')
    /\ process_document text audience user_id w
       = (Ret (pages_object results), w')
    /\ length results = length pages
    /\ forall i page,
         pages !! i = Some page ->
         exists r,
           results !! i = Some r
           /\ simplify_page page (Z.of_nat i + 1) audience vs = Ret r.
Proof.
  intros Hseg.
  destruct (build_vector_store_guarded text user_id w) as (vs & w' & Hg & Hb).
  unfold process_document, mbind, call. rewrite Hg, Hseg. cbn [try_except].
  rewrite asyncio_gather_in_order.
  set (tasks := imap _ pages).
  destruct (collect_results_spec pages audience tasks 0) as (final & Hf & Hlen & Hlook).
  { subst tasks. rewrite length_imap. lia. }
  rewrite Hf. cbn.
  exists vs, w', final. split; [exact Hb|]. split; [reflexivity|].
  split; [subst tasks; now rewrite Hlen, length_imap|].
  intros i page Hpage.
  destruct (simplify_page_returns page (Z.of_nat i + 1) audience vs)
    as (r & Hr & _).
  exists r. split; [|exact Hr].
  rewrite (Hlook i (Ret r) page); [reflexivity| |exact Hpage].
  subst tasks. rewrite list_lookup_imap, Hpage. cbn. now rewrite Hr.
Qed.

Lemma ask_document_reply (text question user_id : string) (w : world) :
  exists vs w' context raw d,
    build_vector_store text user_id w = (Ret vs, w')
    /\ call_perplexity (ask_prompt (ask_context_block context text) question)
         ask_system_msg = Ret raw
    /\ parse_llm_json raw 1 = Ret d
    /\ ask_document text question user_id w =
         (Ret (if (truthy d && has_key "answer" d)%bool then
                 spread {[ "success" := VBool true ]} d
               else if (truthy d && has_key "simplified_text" d)%bool then
                 answer_object true (d !!! "simplified_text") "medium" ""
               else
                 answer_object true (VStr (excerpt_answer text)) "low"
                   (Py.take 200 text)),
          w').
Proof.
  destruct (build_vector_store_guarded text user_id w) as (vs & w' & Hg & Hb).
  assert (exists context,
            match vs with
            | Some _ => try_except (retrieve_context vs question 5)
                                   (fun _ => Ret "")
            | None => Ret ""
            end = Ret context) as [context Hc].
  { destruct vs; [|eauto].
    destruct (retrieve_context_returns (Some i) question 5) as [c ->]. eauto. }
  destruct (call_perplexity_returns
              (ask_prompt (ask_context_block context text) question)
              ask_system_msg) as [raw Hraw].
  destruct (parse_llm_json_returns raw 1) as [d Hd].
  exists vs, w', context, raw, d. repeat (split; [assumption|]).
  unfold ask_document. apply mtry_ret. rewrite (mbind_ret _ _ _ _ _ Hg).
  unfold mbind, call, mret. rewrite Hc, Hraw.
  destruct raw as [|c raw]; cbn [nonempty].
  - rewrite parse_empty_reply in Hd. injection Hd as <-. reflexivity.
  - rewrite Hd. cbn [obind].
    destruct (truthy d && has_key "answer" d)%bool; [reflexivity|].
    now destruct (truthy d && has_key "simplified_text" d)%bool.
Qed.

Lemma extract_key_points_reply (text user_id : string) (w : world) :
  exists vs w' raw d,
    build_vector_store text user_id w = (Ret vs, w')
    /\ call_perplexity (extract_prompt (Py.take 5000 text)) extract_system_msg
       = Ret raw
    /\ parse_llm_json raw 1 = Ret d
    /\ extract_key_points text user_id w =
         (Ret (if (truthy d && has_key "key_points" d)%bool then
                 spread {[ "success" := VBool true ]} d
               else
                 extraction_object true (fallback_points text)
                   "Document analysis"),
          w').
Proof.
  destruct (build_vector_store_guarded text user_id w) as (vs & w' & Hg & Hb).
  destruct (call_perplexity_returns (extract_prompt (Py.take 5000 text))
              extract_system_msg) as [raw Hraw].
  destruct (parse_llm_json_returns raw 1) as [d Hd].
  exists vs, w', raw, d. repeat (split; [assumption|]).
  unfold extract_key_points. apply mtry_ret.
  rewrite (mbind_ret _ _ _ _ _ Hg).
  unfold mbind, call, mret. rewrite Hraw.
  destruct raw as [|c raw]; cbn [nonempty].
  - rewrite parse_empty_reply in Hd. injection Hd as <-. reflexivity.
  - rewrite Hd. cbn [obind].
    now destruct (truthy d && has_key "key_points" d)%bool.
Qed.

Lemma summarize_text_reply (text : string) :
  exists raw d,
    call_perplexity (summarize_prompt text) summarize_system_msg = Ret raw
    /\ parse_llm_json raw 1 = Ret d
    /\ summarize_text text =
         Ret (if (truthy d && has_key "summary" d)%bool then
                spread {[ "success" := VBool true ]} d
              else if (truthy d && has_key "simplified_text" d)%bool then
                match split_method (d !!! "simplified_text") with
                | Ret words =>
                    summary_object true (d !!! "simplified_text")
                      (Z.of_nat (length words))
                | Raise e =>
                    summary_object false
                      (VStr ("Summarization failed: " +:+ str_exc e)) 0
                end
              else
                summary_object true (VStr (fallback_summary text))
                  (Z.of_nat (length (Py.split (fallback_summary text))))).
Proof.
  destruct (call_perplexity_returns (summarize_prompt text)
              summarize_system_msg) as [raw Hraw].
  destruct (parse_llm_json_returns raw 1) as [d Hd].
  exists raw, d. repeat (split; [assumption|]).
  unfold summarize_text. rewrite Hraw. cbn [obind].
  destruct raw as [|c raw]; cbn [nonempty].
  - rewrite parse_empty_reply in Hd. injection Hd as <-. reflexivity.
  - rewrite Hd. cbn [obind].
    destruct (truthy d && has_key "summary" d)%bool; [reflexivity|].
    destruct (truthy d && has_key "simplified_text" d)%bool; [|reflexivity].
    now destruct (split_method (d !!! "simplified_text")).
Qed.

End FlowFacts.

(** * Simplification of a document, page by page *)

(** C3. A document that segments into [N] pages yields [N] page results, in
    page order, whatever the order in which the event loop completes the page
    tasks: result [i] is what [simplify_page] returns for page [i] with
    number [i + 1], it carries that number, and it is the mock response of
    the page whenever the model path of the page fails.  A page task that
    raises would be replaced by the mock response of its page by the loop
    that collects the gathered outcomes. *)
Theorem process_document_pages_in_order `{E : Env}
    (text audience user_id : string) (w : world) (pages : list string) :
  segment_pages text 3000 = Ret pages ->
  exists vs w' results,
    build_vector_store text user_id w = (Ret vs, w')
    /\ process_document text audience user_id w
       = (Ret (pages_object results), w')
    /\ length results = length pages
    /\ (forall i page,
          pages !! i = Some page ->
          exists r,
            results !! i = Some r
            /\ simplify_page page (Z.of_nat i + 1) audience vs = Ret r
            /\ r !! "page_number" = Some (VInt (Z.of_nat i + 1))
            /\ (model_path_fails page (Z.of_nat i + 1) audience vs ->
                generate_mock_response page (Z.of_nat i + 1) audience = Ret r))
    /\ (forall gathered,
          length gathered = length pages ->
          exists final,
            collect_results pages audience 0 gathered = Ret final
            /\ length final = length pages
            /\ forall i page,
                 pages !! i = Some page ->
                 (forall e, gathered !! i = Some (Raise e) ->
                    exists r,
                      final !! i = Some r
                      /\ generate_mock_response page (Z.of_nat i + 1) audience
                         = Ret r)
                 /\ (forall r, gathered !! i = Some (Ret r) ->
                       final !! i = Some r))
    /\ (forall tasks : list (outcome (gmap string value)),
          asyncio_gather tasks = tasks).
Proof.
  intros Hseg.
  destruct (process_document_pages text audience user_id w pages Hseg)
    as (vs & w' & results & Hb & Hp & Hlen & Hres).
  exists vs, w', results. repeat (split; [assumption|]).
  split; [|split].
  - intros i page Hpage.
    destruct (Hres i page Hpage) as (r & Hr & Hs).
    destruct (simplify_page_returns page (Z.of_nat i + 1) audience vs)
      as (r' & Hs' & Hnum & _ & Hmock).
    rewrite Hs in Hs'. injection Hs' as <-.
    exists r. repeat (split; [assumption|]).
    intros Hfail. rewrite generate_mock_response_eq. f_equal.
    symmetry. now apply Hmock.
  - intros gathered Hg.
    destruct (collect_results_spec pages audience gathered 0)
      as (final & Hf & Hlen' & Hlook); [lia|].
    exists final. split; [exact Hf|]. split; [lia|].
    intros i page Hpage. split.
    + intros e He. eexists. split; [|apply generate_mock_response_eq].
      exact (Hlook i (Raise e) page He Hpage).
    + intros r Hr. exact (Hlook i (Ret r) page Hr Hpage).
  - intros tasks. apply asyncio_gather_in_order.
Qed.

(** Two pages separated by a form feed, a model that answers the first page
    only, an event loop that completes the second task first: two results,
    the first from the model, the second the mock of the second page. *)
Lemma process_document_pages_in_order_witness :
  let E := example_env loader_works reply_first_page_only in
  exists results w',
    process_document two_pages "manager" "u1" initial_world
      = (Ret (pages_object results), w')
    /\ length results = 2%nat
    /\ results !! 0%nat
       = Some (<["page_number" := VInt 1]>
               (<["title" := VStr "Alpha"]>
               (<["simplified_text" := VStr "Alpha, made simple."]> ∅)))
    /\ generate_mock_response "Beta section." 2 "manager"
       = Ret (results !!! 1%nat).
Proof.
  intros E.
  destruct (@process_document_pages_in_order E two_pages "manager" "u1"
              initial_world ["Alpha section."; "Beta section."] eq_refl)
    as (vs & w' & results & Hb & Hp & Hlen & Hres & _).
  assert ((Ret vs, w')
          = (Ret (Some [two_pages]),
             World (Some tt) true 1 [SaveLocal "/app/vector_stores/u1"]))
    as Hworld by (rewrite <- Hb; vm_compute; reflexivity).
  injection Hworld as -> ->.
  exists results. eexists. split; [exact Hp|]. split; [exact Hlen|].
  destruct (Hres 0%nat "Alpha section." eq_refl) as (r0 & Hr0 & Hs0 & _).
  destruct (Hres 1%nat "Beta section." eq_refl) as (r1 & Hr1 & _ & _ & Hm1).
  split.
  - rewrite Hr0. f_equal. apply (inj Ret). rewrite <- Hs0.
    vm_compute. reflexivity.
  - rewrite (list_lookup_total_correct _ _ _ Hr1).
    apply Hm1. left. vm_compute. reflexivity.
Defined.

(** * Questions with the model unavailable *)

(** C7. When the model client returns the empty string, [ask_document]
    answers with success, with confidence "low", with an answer that quotes
    the first 500 characters of the document, and with the first 200
    characters of the document as the excerpt. *)
Theorem ask_document_model_unavailable `{E : Env}
    (text question user_id : string) (w : world) :
  (forall prompt, call_perplexity prompt ask_system_msg = Ret "") ->
  exists r w',
    ask_document text question user_id w = (Ret r, w')
    /\ r = answer_object true (VStr (excerpt_answer text)) "low"
             (Py.take 200 text)
    /\ r !! "success" = Some (VBool true)
    /\ r !! "confidence" = Some (VStr "low")
    /\ (exists answer before after,
          r !! "answer" = Some (VStr answer)
          /\ answer = before +:+ Py.take 500 text +:+ after
          /\ text = Py.take 500 text +:+ Py.drop 500 text)
    /\ (exists excerpt,
          r !! "relevant_excerpt" = Some (VStr excerpt)
          /\ text = excerpt +:+ Py.drop 200 text).
Proof.
  intros Hdown.
  destruct (ask_document_reply text question user_id w)
    as (vs & w' & context & raw & d & _ & Hraw & Hd & Hask).
  rewrite Hdown in Hraw. injection Hraw as <-.
  rewrite parse_empty_reply in Hd. injection Hd as <-.
  eexists _, w'. split; [exact Hask|]. cbn [truthy has_key andb].
  split; [reflexivity|]. split; [reflexivity|]. split; [reflexivity|].
  split.
  - exists (excerpt_answer text),
      ("Based on the document, here is what I found related to your question:"
         +:+ blank_line),
      ("..." +:+ blank_line
         +:+ "(Note: AI service returned no structured answer, showing document excerpt instead.)").
    split; [reflexivity|]. split; [reflexivity|]. apply take_drop.
  - eexists. split; [reflexivity|]. apply take_drop.
Qed.

Lemma ask_document_model_unavailable_witness :
  let E := example_env loader_works endpoint_down in
  exists r w',
    ask_document "The launch moved to May." "When is the launch?" "u1"
      initial_world = (Ret r, w')
    /\ r !! "success" = Some (VBool true)
    /\ r !! "confidence" = Some (VStr "low")
    /\ r !! "relevant_excerpt" = Some (VStr "The launch moved to May.").
Proof.
  intros E.
  destruct (@ask_document_model_unavailable E "The launch moved to May."
              "When is the launch?" "u1" initial_world
              (fun prompt => eq_refl))
    as (r & w' & Hask & -> & Hs & Hc & _).
  eexists _, w'. split; [exact Hask|]. split; [exact Hs|]. split; [exact Hc|].
  reflexivity.
Defined.

(** * Summaries *)

Section SummaryFacts.
Context `{E : Env}.

Lemma summary_object_word_count (success : bool) (s : string) :
  word_count_matches
    (summary_object success (VStr s) (Z.of_nat (length (Py.split s)))).
Proof. exists s. split; reflexivity. Qed.

Lemma has_key_false (d : gmap string value) (key : string) :
  has_key key d = false -> d !! key = None.
Proof. unfold has_key. now destruct (d !! key). Qed.

Lemma has_key_lookup (d : gmap string value) (key : string) (v : value) :
  d !! key = Some v -> has_key key d = true.
Proof. unfold has_key. now intros ->. Qed.

Lemma spread_success_lookup (d : gmap string value) (key : string) (v : value) :
  d !! key = Some v ->
  spread {[ "success" := VBool true ]} d !! key = Some v.
Proof. intros H. unfold spread. now apply lookup_union_Some_l. Qed.


End SummaryFacts.

(** C4, as the code has it.  When the model client returns the fenced text
    of scenario 3 and [json.loads] decodes the JSON text inside the fence as
    the object it denotes, [summarize_text] returns that object with
    [success] set and with the [page_number] 1 that the parser writes into
    every object it decodes: five entries, not four. *)
Theorem summarize_fenced_json `{E : Env} (text : string) :
  call_perplexity (summarize_prompt text) summarize_system_msg
    = Ret fenced_summary ->
  json_loads summary_json = Ret (VDict summary_x) ->
  summarize_text text =
    Ret (<["success" := VBool true]>
         (<["summary" := VStr "X"]>
         (<["word_count" := VInt 1]>
         (<["key_topics" := VList []]>
         (<["page_number" := VInt 1]> ∅))))).
Proof.
  intros Hreply Hjson.
  destruct (summarize_text_reply text) as (raw & d & Hraw & Hd & ->).
  rewrite Hreply in Hraw. injection Hraw as <-.
  assert (parse_llm_json fenced_summary 1
          = Ret (<["page_number" := VInt 1]> summary_x)) as Hparse.
  { apply parse_llm_json_decoded; [discriminate|]. left. exact Hjson. }
  rewrite Hparse in Hd. injection Hd as <-.
  reflexivity.
Qed.

Lemma summarize_fenced_json_witness :
  let E := example_env loader_works (fun _ _ => Ret fenced_summary) in
  summarize_text "Revenue grew by ten percent." =
    Ret (<["success" := VBool true]>
         (<["summary" := VStr "X"]>
         (<["word_count" := VInt 1]>
         (<["key_topics" := VList []]>
         (<["page_number" := VInt 1]> ∅))))).
Proof.
  intros E.
  apply (@summarize_fenced_json E "Revenue grew by ten percent.");
    reflexivity.
Defined.

(** With the reply of scenario 3 the result is not the four-entry object of
    the scenario: it also maps [page_number] to 1. *)
Lemma summarize_fenced_json_extra_key :
  let E := example_env loader_works (fun _ _ => Ret fenced_summary) in
  let r := <["page_number" := VInt 1]> (summary_object true (VStr "X") 1) in
  summarize_text "Revenue grew by ten percent." = Ret r
  /\ r !! "page_number" = Some (VInt 1)
  /\ summary_object true (VStr "X") 1 !! "page_number" = None
  /\ r <> summary_object true (VStr "X") 1.
Proof.
  intros E r. split; [vm_compute; reflexivity|].
  split; [reflexivity|]. split; [reflexivity|].
  intros H. apply (f_equal (fun m => m !! "page_number")) in H.
  vm_compute in H. discriminate H.
Qed.

(** C9. On the two degraded paths of [summarize_text], reached when the
    parsed reply has no [summary], the [word_count] of the result is the
    number of whitespace-separated words of its [summary]: when the parsed
    reply holds a string under [simplified_text] the summary is that string,
    and when it has no [simplified_text] (or there is no reply) the summary
    is the extractive fallback.  A [simplified_text] that is not a string has
    no [split] method: the call ends on the failure path, with [success]
    false, and on neither degraded path. *)
Theorem summarize_degraded_word_count `{E : Env} (text raw : string)
    (d : gmap string value) :
  call_perplexity (summarize_prompt text) summarize_system_msg = Ret raw ->
  parse_llm_json raw 1 = Ret d ->
  has_key "summary" d = false ->
  (forall s,
     d !! "simplified_text" = Some (VStr s) ->
     exists r,
       summarize_text text = Ret r
       /\ r = summary_object true (VStr s) (Z.of_nat (length (Py.split s)))
       /\ word_count_matches r)
  /\ (d !! "simplified_text" = None ->
      exists r,
        summarize_text text = Ret r
        /\ r = summary_object true (VStr (fallback_summary text))
                 (Z.of_nat (length (Py.split (fallback_summary text))))
        /\ word_count_matches r)
  /\ (forall v,
        d !! "simplified_text" = Some v ->
        (forall s, v <> VStr s) ->
        exists r,
          summarize_text text = Ret r
          /\ r !! "success" = Some (VBool false)
          /\ r !! "word_count" = Some (VInt 0)).
Proof.
  intros Hreply Hparse Hsum.
  destruct (summarize_text_reply text) as (raw' & d' & Hraw & Hd & Heq).
  rewrite Hreply in Hraw. injection Hraw as <-.
  rewrite Hparse in Hd. injection Hd as <-.
  rewrite Hsum, andb_false_r in Heq.
  split; [|split].
  - intros s Hs.
    rewrite (truthy_lookup _ _ _ Hs), (has_key_lookup _ _ _ Hs) in Heq.
    rewrite (lookup_total_correct _ _ _ Hs) in Heq. cbn in Heq.
    eexists. split; [exact Heq|].
    split; [reflexivity | apply summary_object_word_count].
  - intros Hs.
    assert (has_key "simplified_text" d = false) as Hk
      by (unfold has_key; now rewrite Hs).
    rewrite Hk, andb_false_r in Heq.
    eexists. split; [exact Heq|].
    split; [reflexivity | apply summary_object_word_count].
  - intros v Hv Hnot.
    rewrite (truthy_lookup _ _ _ Hv), (has_key_lookup _ _ _ Hv) in Heq.
    rewrite (lookup_total_correct _ _ _ Hv) in Heq. cbn in Heq.
    eexists. split; [exact Heq|].
    destruct v; try (split; reflexivity).
    now destruct (Hnot s).
Qed.

(** A reply that is not JSON becomes the summary, with its four words
    counted. *)
Lemma summarize_degraded_word_count_witness :
  let E := example_env loader_works
             (fun _ _ => Ret "Revenue grew. Costs fell.") in
  summarize_text "Revenue grew by ten percent while costs fell." =
    Ret (summary_object true (VStr "Revenue grew. Costs fell.") 4).
Proof.
  intros E.
  destruct (proj1 (@summarize_degraded_word_count E
              "Revenue grew by ten percent while costs fell."
              "Revenue grew. Costs fell."
              (raw_as_section "Revenue grew. Costs fell." 1)
              eq_refl eq_refl eq_refl)
              "Revenue grew. Costs fell." eq_refl)
    as (r & Hr & -> & _).
  exact Hr.
Defined.

(** * The page number written by the parser *)

(** C8, as the code has it.  For a non-empty reply the object returned by
    [parse_llm_json] maps [page_number] to the number given, also when the
    decoded JSON object had a [page_number] of its own.  The flows parse with
    number 1, and a result that spreads the parsed object (returned when
    that object has the flow's key: [answer], [summary], [key_points])
    carries [page_number] 1 besides the fields of its schema.  A result
    returned when the parsed object lacks the flow's key carries no
    [page_number]: this is so for the answer and the summary rebuilt from a
    parsed [simplified_text], which consist of the fields of their schema,
    and for the fallback results. *)
Theorem parsed_page_number_overwritten `{E : Env} (raw : string) (n : Z) :
  raw <> "" ->
  (exists d, parse_llm_json raw n = Ret d
             /\ d !! "page_number" = Some (VInt n))
  /\ (forall d0,
        decoded_object raw d0 ->
        parse_llm_json raw n = Ret (<["page_number" := VInt n]> d0))
  /\ (forall d,
        parse_llm_json raw 1 = Ret d ->
        (forall text question user_id w,
           (forall prompt, call_perplexity prompt ask_system_msg = Ret raw) ->
           has_key "answer" d = true ->
           exists r w',
             ask_document text question user_id w = (Ret r, w')
             /\ r = spread {[ "success" := VBool true ]} d
             /\ r !! "page_number" = Some (VInt 1))
        /\ (forall text,
              call_perplexity (summarize_prompt text) summarize_system_msg
                = Ret raw ->
              has_key "summary" d = true ->
              exists r,
                summarize_text text = Ret r
                /\ r = spread {[ "success" := VBool true ]} d
                /\ r !! "page_number" = Some (VInt 1))
        /\ (forall text user_id w,
              call_perplexity (extract_prompt (Py.take 5000 text))
                extract_system_msg = Ret raw ->
              has_key "key_points" d = true ->
              exists r w',
                extract_key_points text user_id w = (Ret r, w')
                /\ r = spread {[ "success" := VBool true ]} d
                /\ r !! "page_number" = Some (VInt 1))
        /\ (forall text question user_id w,
              (forall prompt, call_perplexity prompt ask_system_msg = Ret raw) ->
              has_key "answer" d = false ->
              exists r w',
                ask_document text question user_id w = (Ret r, w')
                /\ r !! "page_number" = None
                /\ (has_key "simplified_text" d = true ->
                    r = answer_object true (d !!! "simplified_text")
                          "medium" ""))
        /\ (forall text,
              call_perplexity (summarize_prompt text) summarize_system_msg
                = Ret raw ->
              has_key "summary" d = false ->
              exists r,
                summarize_text text = Ret r
                /\ r !! "page_number" = None
                /\ (forall s,
                      d !! "simplified_text" = Some (VStr s) ->
                      r = summary_object true (VStr s)
                            (Z.of_nat (length (Py.split s)))))
        /\ (forall text user_id w,
              call_perplexity (extract_prompt (Py.take 5000 text))
                extract_system_msg = Ret raw ->
              has_key "key_points" d = false ->
              exists r w',
                extract_key_points text user_id w = (Ret r, w')
                /\ r !! "page_number" = None)).
Proof.
  intros Hraw. split; [|split].
  - destruct (parse_llm_json_returns raw n) as [d Hd]. exists d.
    split; [exact Hd|]. now apply (parse_llm_json_page_number raw).
  - intros d0 Hd0. now apply parse_llm_json_decoded.
  - intros d Hd.
    pose proof (parse_llm_json_page_number raw 1 d Hraw Hd) as Hnum.
    split; [|split; [|split; [|split; [|split]]]].
    + intros text question user_id w Hreply Hkey.
      destruct (ask_document_reply text question user_id w)
        as (vs & w' & context & raw' & d' & _ & Hraw' & Hd' & Hask).
      rewrite Hreply in Hraw'. injection Hraw' as <-.
      rewrite Hd in Hd'. injection Hd' as <-.
      rewrite Hkey, (has_key_truthy _ _ Hkey) in Hask.
      eexists _, w'. split; [exact Hask|]. split; [reflexivity|].
      now apply spread_success_lookup.
    + intros text Hreply Hkey.
      destruct (summarize_text_reply text) as (raw' & d' & Hraw' & Hd' & Hsum).
      rewrite Hreply in Hraw'. injection Hraw' as <-.
      rewrite Hd in Hd'. injection Hd' as <-.
      rewrite Hkey, (has_key_truthy _ _ Hkey) in Hsum.
      eexists. split; [exact Hsum|]. split; [reflexivity|].
      now apply spread_success_lookup.
    + intros text user_id w Hreply Hkey.
      destruct (extract_key_points_reply text user_id w)
        as (vs & w' & raw' & d' & _ & Hraw' & Hd' & Hext).
      rewrite Hreply in Hraw'. injection Hraw' as <-.
      rewrite Hd in Hd'. injection Hd' as <-.
      rewrite Hkey, (has_key_truthy _ _ Hkey) in Hext.
      eexists _, w'. split; [exact Hext|]. split; [reflexivity|].
      now apply spread_success_lookup.
    + intros text question user_id w Hreply Hkey.
      destruct (ask_document_reply text question user_id w)
        as (vs & w' & context & raw' & d' & _ & Hraw' & Hd' & Hask).
      rewrite Hreply in Hraw'. injection Hraw' as <-.
      rewrite Hd in Hd'. injection Hd' as <-.
      rewrite Hkey, andb_false_r in Hask.
      eexists _, w'. split; [exact Hask|].
      destruct (truthy d && has_key "simplified_text" d)%bool eqn:Hst.
      * split; reflexivity.
      * split; [reflexivity|]. intros Hs.
        rewrite Hs, (has_key_truthy _ _ Hs) in Hst. discriminate Hst.
    + intros text Hreply Hkey.
      destruct (summarize_text_reply text) as (raw' & d' & Hraw' & Hd' & Hsum).
      rewrite Hreply in Hraw'. injection Hraw' as <-.
      rewrite Hd in Hd'. injection Hd' as <-.
      rewrite Hkey, andb_false_r in Hsum.
      eexists. split; [exact Hsum|].
      destruct (truthy d && has_key "simplified_text" d)%bool eqn:Hst.
      * destruct (split_method (d !!! "simplified_text")) as [words|e]
          eqn:Hsplit; (split; [reflexivity|]); intros s Hs;
          rewrite (lookup_total_correct _ _ _ Hs) in *;
          cbn [split_method] in Hsplit; [|discriminate Hsplit].
        now injection Hsplit as <-.
      * split; [reflexivity|]. intros s Hs.
        pose proof (has_key_lookup _ _ _ Hs) as Hk.
        rewrite Hk, (has_key_truthy _ _ Hk) in Hst. discriminate Hst.
    + intros text user_id w Hreply Hkey.
      destruct (extract_key_points_reply text user_id w)
        as (vs & w' & raw' & d' & _ & Hraw' & Hd' & Hext).
      rewrite Hreply in Hraw'. injection Hraw' as <-.
      rewrite Hd in Hd'. injection Hd' as <-.
      rewrite Hkey, andb_false_r in Hext.
      eexists _, w'. split; [exact Hext | reflexivity].
Qed.

(** A model that writes its own page number 7 and an answer: the parser
    replaces the 7 by 1 and the answer object carries it. *)
Lemma parsed_page_number_overwritten_witness :
  let reply := "{" +:+ quoted "answer" +:+ ": " +:+ quoted "In May." +:+ ", "
                 +:+ quoted "page_number" +:+ ": 7}" in
  let E := example_env loader_works (fun _ _ => Ret reply) in
  exists r w',
    ask_document "The launch moved to May." "When is the launch?" "u1"
      initial_world = (Ret r, w')
    /\ r = <["success" := VBool true]>
           (<["answer" := VStr "In May."]>
           (<["page_number" := VInt 1]> ∅)).
Proof.
  intros reply E.
  destruct (@parsed_page_number_overwritten E reply 1 ltac:(discriminate))
    as (_ & _ & Hflows).
  assert (parse_llm_json reply 1
          = Ret (<["answer" := VStr "In May."]>
                 (<["page_number" := VInt 1]> ∅))) as Hparse
    by (vm_compute; reflexivity).
  destruct (proj1 (Hflows _ Hparse) "The launch moved to May."
              "When is the launch?" "u1" initial_world)
    as (r & w' & Hask & -> & _);
    [intros prompt; reflexivity | reflexivity |].
  eexists _, w'. split; [exact Hask | reflexivity].
Defined.

(** A reply that is a JSON object with [simplified_text] and no [answer]:
    the parser decodes it and sets [page_number], and the answer that
    [ask_document] builds from it has the four fields of the schema and no
    [page_number]. *)
Lemma ask_from_simplified_text_has_no_page_number :
  let E := example_env loader_works (fun _ _ => Ret simplified_only_json) in
  parse_llm_json simplified_only_json 1
    = Ret (<["simplified_text" := VStr "The launch is in May."]>
           (<["page_number" := VInt 1]> ∅))
  /\ fst (ask_document "The launch moved to May." "When is the launch?" "u1"
            initial_world)
     = Ret (answer_object true (VStr "The launch is in May.") "medium" "")
  /\ has_key "page_number"
       (answer_object true (VStr "The launch is in May.") "medium" "")
     = false.
Proof.
  intros E. split; [vm_compute; reflexivity|].
  split; [vm_compute; reflexivity | reflexivity].
Qed.

(** * The boundary of the orchestrator *)

Section BoundaryFacts.
Context `{E : Env}.












End BoundaryFacts.




(** * Further properties of the engine *)

(** ** The embedding singleton, once loaded *)

(** X1. Once [get_embeddings] has returned a model, every later call returns
    that same model, does not run the loader again and leaves the globals as
    they are. *)
Theorem get_embeddings_ready_is_stable `{E : Env} (w w' : world)
    (emb : embedder) :
  get_embeddings w = (Ret (Some emb), w') ->
  _embeddings w' = Some emb
  /\ get_embeddings w' = (Ret (Some emb), w')
  /\ forall n, after_calls n w' = w'.
Proof.
  intros Hget.
  assert (_embeddings w' = Some emb) as Hheld.
  { destruct (_embeddings w) as [held|] eqn:H1.
    - rewrite (get_embeddings_cached _ _ H1) in Hget.
      now injection Hget as -> <-.
    - destruct (_embeddings_init_attempted w) eqn:H2.
      + rewrite (get_embeddings_failed _ H1 H2) in Hget. discriminate.
      + destruct (get_embeddings_first w H1 H2) as (_ & _ & _ & r & Hr & He).
        rewrite Hget in Hr, He. cbn in Hr, He. now injection Hr as <-. }
  pose proof (get_embeddings_cached _ _ Hheld) as Hagain.
  split; [exact Hheld|]. split; [exact Hagain|].
  induction n as [|n IH]; [reflexivity|].
  cbn [after_calls]. now rewrite Hagain.
Qed.

Lemma get_embeddings_ready_is_stable_witness :
  let E := example_env loader_works endpoint_down in
  let w' := World (Some tt) true 1 [] in
  get_embeddings w' = (Ret (Some tt), w') /\ after_calls 7 w' = w'.
Proof.
  intros E w'.
  destruct (@get_embeddings_ready_is_stable E initial_world w' tt eq_refl)
    as (_ & Hagain & Hcalls).
  split; [exact Hagain | exact (Hcalls 7%nat)].
Defined.

(** ** The vector store on disk *)

Section StoreFacts.
Context `{E : Env}.

Lemma chunk_text_blank (text : string) (size overlap : nat) :
  Py.strip text = "" -> chunk_text text size overlap = Ret [].
Proof.
  intros Hblank. unfold chunk_text. rewrite Hblank. cbn [nonempty negb].
  now rewrite orb_true_r.
Qed.

Lemma sanitize_fixes_safe (s : string) :
  Py.all_chars is_safe_char s = true -> sanitize_user_id s = s.
Proof.
  unfold sanitize_user_id. induction s as [|c s IH]; [reflexivity|].
  cbn [Py.all_chars Py.map_chars]. intros [Hc Hs]%andb_prop.
  now rewrite Hc, (IH Hs).
Qed.

Lemma sanitize_app (a b : string) :
  sanitize_user_id (a +:+ b) = sanitize_user_id a +:+ sanitize_user_id b.
Proof.
  unfold sanitize_user_id. induction a as [|c a IH]; [reflexivity|].
  change (String c a +:+ b) with (String c (a +:+ b)).
  cbn [Py.map_chars]. rewrite IH. reflexivity.
Qed.

End StoreFacts.

(** X2. [build_vector_store] writes to disk exactly when it returns an
    index: a call that returns [None] leaves the file system untouched, a
    call that returns an index has made one [save_local] at the store path of
    the sanitized user id.  Without FAISS the call returns [None] at once and
    changes nothing, not even the embedding globals; for a blank text it
    returns [None]. *)
Theorem build_vector_store_writes_iff_returns `{E : Env}
    (text user_id : string) (w : world) :
  exists r w',
    build_vector_store text user_id w = (Ret r, w')
    /\ fs_trace w' =
         fs_trace w ++
         match r with
         | Some _ =>
             [SaveLocal (path_div VECTOR_STORE_DIR (sanitize_user_id user_id))]
         | None => []
         end
    /\ (HAS_FAISS = false -> r = None /\ w' = w)
    /\ (Py.strip text = "" -> r = None).
Proof.
  unfold build_vector_store.
  destruct HAS_FAISS eqn:Hfaiss; cbn [negb].
  2:{ exists None, w. rewrite app_nil_r. repeat split. }
  unfold mbind at 1.
  pose proof (get_embeddings_returns w) as [r Hr].
  pose proof (get_embeddings_fs_trace w) as Htr.
  destruct (get_embeddings w) as [o w1]. cbn in Hr, Htr. subst o.
  destruct r as [emb|].
  2:{ exists None, w1. rewrite app_nil_r. repeat split; congruence. }
  unfold mtry, mbind, call, mret, log_fs, modify.
  destruct (chunk_text text 1000 200) as [[|c chunks]|e] eqn:Hchunks.
  - exists None, w1. rewrite app_nil_r. repeat split; congruence.
  - assert (Py.strip text = "" -> False) as Hnb.
    { intros Hb. rewrite (chunk_text_blank _ _ _ Hb) in Hchunks.
      discriminate. }
    destruct (FAISS_from_texts (c :: chunks) emb) as [vs|e].
    + destruct (save_local vs _) as [[]|e];
        (eexists (Some vs), _; split; [reflexivity|]; cbn;
         rewrite Htr; repeat split; try congruence; try contradiction).
    + exists None, w1. rewrite app_nil_r.
      repeat split; try congruence; try contradiction.
  - assert (Py.strip text = "" -> False) as Hnb.
    { intros Hb. rewrite (chunk_text_blank _ _ _ Hb) in Hchunks.
      discriminate. }
    exists None, w1. rewrite app_nil_r.
    repeat split; try congruence; try contradiction.
Qed.

(** X3. A failure to persist the index is not fatal: when FAISS and the
    embedding model are available and the index is built, [build_vector_store]
    returns the index whether [save_local] succeeds or raises. *)
Theorem build_vector_store_survives_save_failure `{E : Env}
    (text user_id : string) (w w1 : world) (emb : embedder)
    (chunks : list string) (vs : index) :
  HAS_FAISS = true ->
  get_embeddings w = (Ret (Some emb), w1) ->
  chunk_text text 1000 200 = Ret chunks ->
  chunks <> [] ->
  FAISS_from_texts chunks emb = Ret vs ->
  exists w',
    build_vector_store text user_id w = (Ret (Some vs), w')
    /\ _embeddings w' = _embeddings w1
    /\ loader_calls w' = loader_calls w1.
Proof.
  intros Hfaiss Hget Hchunks Hne Hbuilt.
  unfold build_vector_store. rewrite Hfaiss. cbn [negb].
  rewrite (mbind_ret _ _ _ _ _ Hget).
  unfold mtry, mbind, call, mret, log_fs, modify. rewrite Hchunks.
  destruct chunks as [|c chunks]; [contradiction|]. rewrite Hbuilt.
  destruct (save_local vs _) as [[]|e]; eexists; repeat split.
Qed.

Lemma build_vector_store_survives_save_failure_witness :
  let E := read_only_disk_env endpoint_down in
  exists w',
    build_vector_store "Quarterly report." "u1" initial_world
      = (Ret (Some ["Quarterly report."]), w').
Proof.
  intros E.
  destruct (@build_vector_store_survives_save_failure E "Quarterly report."
              "u1" initial_world (World (Some tt) true 1 []) tt
              ["Quarterly report."] ["Quarterly report."]
              eq_refl eq_refl eq_refl ltac:(discriminate) eq_refl)
    as (w' & Hb & _).
  exists w'. exact Hb.
Defined.

(** X4. [load_vector_store] only reads: it asks whether the store path of
    the sanitized user id exists and loads from it only when it does; it
    never saves.  It returns [None] when FAISS or the embedding model is
    missing, when the path does not exist and when the load raises. *)
Theorem load_vector_store_only_reads `{E : Env} (user_id : string) (w : world) :
  let store_path := path_div VECTOR_STORE_DIR (sanitize_user_id user_id) in
  exists r w',
    load_vector_store user_id w = (Ret r, w')
    /\ (fs_trace w' = fs_trace w
        \/ fs_trace w' = fs_trace w ++ [PathExists store_path]
        \/ fs_trace w' = fs_trace w ++ [PathExists store_path;
                                        LoadLocal store_path])
    /\ (path_exists store_path = false -> r = None)
    /\ (HAS_FAISS = false -> r = None /\ w' = w)
    /\ (forall vs, r = Some vs ->
          path_exists store_path = true
          /\ exists emb, _embeddings w' = Some emb
                         /\ FAISS_load_local store_path emb = Ret vs).
Proof.
  intros store_path. unfold load_vector_store.
  destruct HAS_FAISS eqn:Hfaiss; cbn [negb].
  2:{ exists None, w. repeat split; auto; discriminate. }
  unfold mbind at 1.
  destruct (_embeddings w) as [held|] eqn:Hheld.
  - rewrite (get_embeddings_cached _ _ Hheld).
    unfold mtry, mbind, call, mret, log_fs, modify. fold store_path.
    destruct (path_exists store_path) eqn:Hexists; cbn [negb].
    + destruct (FAISS_load_local store_path held) as [vs|e] eqn:Hload;
        eexists _, _; (split; [reflexivity|]); cbn;
        rewrite <- ?app_assoc; repeat split; auto; try discriminate.
      match goal with H : Some _ = Some _ |- _ => injection H as <- end.
      eauto.
    + eexists _, _. split; [reflexivity|]. cbn.
      repeat split; auto; discriminate.
  - pose proof (get_embeddings_returns w) as [r Hr].
    pose proof (get_embeddings_fs_trace w) as Htr.
    destruct (get_embeddings w) as [o w1] eqn:Hget. cbn in Hr, Htr. subst o.
    destruct r as [emb|].
    2:{ exists None, w1. repeat split; auto; discriminate. }
    assert (_embeddings w1 = Some emb) as Hnow.
    { destruct (_embeddings_init_attempted w) eqn:H2.
      - rewrite (get_embeddings_failed _ Hheld H2) in Hget. discriminate.
      - destruct (get_embeddings_first w Hheld H2) as (_ & _ & _ & r & Hr & He).
        rewrite Hget in Hr, He. cbn in Hr, He. now injection Hr as <-. }
    unfold mtry, mbind, call, mret, log_fs, modify. fold store_path.
    destruct (path_exists store_path) eqn:Hexists; cbn [negb].
    + destruct (FAISS_load_local store_path emb) as [vs|e] eqn:Hload;
        eexists _, _; (split; [reflexivity|]); cbn; rewrite Htr;
        rewrite <- ?app_assoc; repeat split; auto; try discriminate.
      match goal with H : Some _ = Some _ |- _ => injection H as <- end.
      eauto.
    + eexists _, _. split; [reflexivity|]. cbn. rewrite Htr.
      repeat split; auto; discriminate.
Qed.

(** X5. Sanitizing a user id is idempotent and leaves an id made of the
    characters [[A-Za-z0-9_-]] as it is; two ids that differ only in
    characters outside the class are sanitized to the same name, so their
    indexes share one directory. *)
Theorem sanitize_user_id_idempotent (user_id : string) :
  sanitize_user_id (sanitize_user_id user_id) = sanitize_user_id user_id
  /\ (Py.all_chars is_safe_char user_id = true ->
      sanitize_user_id user_id = user_id)
  /\ (forall before after c c',
        is_safe_char c = false -> is_safe_char c' = false ->
        sanitize_user_id (before +:+ String c after)
          = sanitize_user_id (before +:+ String c' after)).
Proof.
  split; [|split].
  - apply sanitize_fixes_safe, sanitize_safe.
  - apply sanitize_fixes_safe.
  - intros before after c c' Hc Hc'. rewrite !sanitize_app.
    f_equal. unfold sanitize_user_id. cbn [Py.map_chars]. now rewrite Hc, Hc'.
Qed.

Lemma sanitize_user_id_idempotent_witness :
  sanitize_user_id "team-7_b" = "team-7_b"
  /\ sanitize_user_id "a/b" = sanitize_user_id "a.b".
Proof.
  split.
  - apply (proj1 (proj2 (sanitize_user_id_idempotent "team-7_b"))).
    reflexivity.
  - apply (proj2 (proj2 (sanitize_user_id_idempotent "")) "a" "b" "/"%char
             "."%char); reflexivity.
Defined.

(** ** Facts about the string primitives *)

Section StringFacts.

Lemma append_assoc (a b c : string) : (a +:+ b) +:+ c = a +:+ (b +:+ c).
Proof.
  induction a as [|x a IH]; [reflexivity|].
  change (String x ((a +:+ b) +:+ c) = String x (a +:+ (b +:+ c))).
  now rewrite IH.
Qed.


Lemma len_append (a b : string) : Py.len (a +:+ b) = (Py.len a + Py.len b)%nat.
Proof.
  unfold Py.len. induction a as [|x a IH]; [reflexivity|].
  change (S (String.length (a +:+ b)) = S (String.length a + String.length b)).
  now rewrite IH.
Qed.

Lemma len_take (n : nat) (s : string) :
  Py.len (Py.take n s) = Nat.min n (Py.len s).
Proof.
  unfold Py.len. revert s. induction n as [|n IH]; intros [|c s];
    try reflexivity.
  cbn. now rewrite IH.
Qed.

Lemma take_take (n : nat) (s : string) : Py.take n (Py.take n s) = Py.take n s.
Proof.
  revert s. induction n as [|n IH]; intros [|c s]; try reflexivity.
  cbn. now rewrite IH.
Qed.

Lemma nonempty_take (n : nat) (s : string) :
  nonempty (Py.take (S n) s) = nonempty s.
Proof. now destruct s. Qed.

Lemma nonempty_false (s : string) : nonempty s = false -> s = "".
Proof. now destruct s. Qed.

Lemma lstrip_starts_clean (s : string) : starts_clean (Py.lstrip s) = true.
Proof.
  unfold Py.lstrip. induction s as [|c s IH]; [reflexivity|].
  cbn [Py.drop_while]. destruct (Py.is_space c) eqn:Hc; [exact IH|].
  cbn. now rewrite Hc.
Qed.

Lemma lstrip_clean (s : string) : starts_clean s = true -> Py.lstrip s = s.
Proof.
  destruct s as [|c s]; [reflexivity|]. cbn. intros Hc.
  unfold Py.lstrip. cbn. now destruct (Py.is_space c).
Qed.

Lemma rstrip_cons (c : ascii) (s : string) :
  Py.rstrip (String c s) =
    match Py.rstrip s with
    | "" => if Py.is_space c then "" else String c ""
    | r => String c r
    end.
Proof. reflexivity. Qed.

Lemma rstrip_idempotent (s : string) : Py.rstrip (Py.rstrip s) = Py.rstrip s.
Proof.
  induction s as [|c s IH]; [reflexivity|].
  rewrite rstrip_cons. destruct (Py.rstrip s) as [|d r] eqn:Hr.
  - destruct (Py.is_space c) eqn:Hc; [reflexivity|].
    rewrite rstrip_cons. cbn. now rewrite Hc.
  - rewrite rstrip_cons, IH. reflexivity.
Qed.

Lemma rstrip_starts_clean (s : string) :
  starts_clean s = true -> starts_clean (Py.rstrip s) = true.
Proof.
  destruct s as [|c s]; [reflexivity|]. cbn [starts_clean]. intros Hc.
  rewrite rstrip_cons. destruct (Py.rstrip s); cbn [starts_clean]; [|exact Hc].
  destruct (Py.is_space c) eqn:Hs; [discriminate Hc|]. cbn. now rewrite Hs.
Qed.

Lemma strip_idempotent (s : string) : Py.strip (Py.strip s) = Py.strip s.
Proof.
  unfold Py.strip.
  rewrite (lstrip_clean (Py.rstrip (Py.lstrip s))).
  - apply rstrip_idempotent.
  - apply rstrip_starts_clean, lstrip_starts_clean.
Qed.

Lemma len_rstrip (s : string) : (Py.len (Py.rstrip s) <= Py.len s)%nat.
Proof.
  unfold Py.len. induction s as [|c s IH]; [reflexivity|].
  rewrite rstrip_cons. destruct (Py.rstrip s).
  - destruct (Py.is_space c); cbn; lia.
  - cbn in *. lia.
Qed.

Lemma len_lstrip (s : string) :
  Py.lstrip s = s \/ (Py.len (Py.lstrip s) < Py.len s)%nat.
Proof.
  unfold Py.lstrip, Py.len. induction s as [|c s IH]; [now left|].
  cbn [Py.drop_while]. destruct (Py.is_space c); [|now left].
  right. destruct IH as [-> | IH]; cbn; lia.
Qed.

Lemma len_strip (s : string) : (Py.len (Py.strip s) <= Py.len s)%nat.
Proof.
  unfold Py.strip. pose proof (len_rstrip (Py.lstrip s)).
  destruct (len_lstrip s) as [Heq | Hlt]; [rewrite Heq in *|]; lia.
Qed.

(** A string equal to its own [strip()] has white space at neither end. *)
Lemma strip_fixed (s : string) :
  Py.strip s = s -> Py.lstrip s = s /\ Py.rstrip s = s.
Proof.
  intros Hs. unfold Py.strip in Hs.
  destruct (len_lstrip s) as [Heq | Hlt].
  - rewrite Heq in Hs. now split.
  - pose proof (len_rstrip (Py.lstrip s)) as Hle.
    rewrite Hs in Hle. lia.
Qed.

Lemma rstrip_append_blank (a b : string) :
  Py.rstrip b = "" -> Py.rstrip (a +:+ b) = Py.rstrip a.
Proof.
  intros Hb. induction a as [|c a IH]; [exact Hb|].
  change (String c a +:+ b) with (String c (a +:+ b)).
  now rewrite !rstrip_cons, IH.
Qed.

Lemma rstrip_append_kept (a b : string) :
  Py.rstrip b <> "" -> Py.rstrip (a +:+ b) = a +:+ Py.rstrip b.
Proof.
  intros Hb. induction a as [|c a IH]; [reflexivity|].
  change (String c a +:+ b) with (String c (a +:+ b)).
  rewrite rstrip_cons, IH.
  change (String c a +:+ Py.rstrip b) with (String c (a +:+ Py.rstrip b)).
  destruct (a +:+ Py.rstrip b) eqn:Hab; [|reflexivity].
  destruct a; [|discriminate]. cbn in Hab. contradiction.
Qed.

Lemma strip_prefix_append (p s : string) :
  Py.strip_prefix p (p +:+ s) = Some s.
Proof.
  induction p as [|c p IH]; [now destruct s|].
  change (String c p +:+ s) with (String c (p +:+ s)).
  cbn [Py.strip_prefix]. now rewrite Ascii.eqb_refl.
Qed.

Lemma rev_app_append (a b acc : string) :
  String.rev_app (a +:+ b) acc = String.rev_app b (String.rev_app a acc).
Proof.
  revert acc. induction a as [|c a IH]; intros acc; [reflexivity|].
  change (String c a +:+ b) with (String c (a +:+ b)).
  cbn [String.rev_app]. apply IH.
Qed.

Lemma rev_app_acc (s acc : string) :
  String.rev_app s acc = String.rev s +:+ acc.
Proof.
  unfold String.rev. revert acc.
  induction s as [|c s IH]; intros acc; [reflexivity|].
  cbn [String.rev_app]. rewrite (IH (String c acc)), (IH (String c "")).
  now rewrite append_assoc.
Qed.

Lemma rev_append (a b : string) :
  String.rev (a +:+ b) = String.rev b +:+ String.rev a.
Proof.
  unfold String.rev at 1. rewrite rev_app_append. apply rev_app_acc.
Qed.

Lemma rev_involutive (s : string) : String.rev (String.rev s) = s.
Proof.
  induction s as [|c s IH]; [reflexivity|].
  unfold String.rev at 2. cbn [String.rev_app]. rewrite rev_app_acc.
  rewrite rev_append, IH. reflexivity.
Qed.

Lemma strip_suffix_append (p s : string) :
  Py.strip_suffix p (s +:+ p) = Some s.
Proof.
  unfold Py.strip_suffix. rewrite rev_append, strip_prefix_append.
  cbn. now rewrite rev_involutive.
Qed.

End StringFacts.

(** ** The model client *)

(** X6. [call_perplexity] never raises and returns text without white space
    at either end.  It returns the empty string exactly when the [openai]
    library is missing, the key is empty or the placeholder, the request
    raises, or the content of the reply is blank: a blank reply is handled
    like an unavailable model. *)
Theorem call_perplexity_empty_iff `{E : Env} (prompt system_msg : string) :
  exists raw,
    call_perplexity prompt system_msg = Ret raw
    /\ Py.strip raw = raw
    /\ (raw = "" <->
        HAS_OPENAI = false
        \/ PERPLEXITY_API_KEY = ""
        \/ PERPLEXITY_API_KEY = "your_perplexity_api_key_here"
        \/ (exists e, chat_completions_create prompt system_msg = Raise e)
        \/ (exists content,
              chat_completions_create prompt system_msg = Ret content
              /\ Py.strip content = "")).
Proof.
  unfold call_perplexity.
  destruct HAS_OPENAI; cbn [negb].
  2:{ exists "". repeat split; auto. }
  destruct (nonempty PERPLEXITY_API_KEY) eqn:Hkey; cbn [negb orb].
  2:{ exists "". repeat split; auto.
      intros _. right. left. now apply nonempty_false. }
  destruct (String.eqb PERPLEXITY_API_KEY "your_perplexity_api_key_here")
    eqn:Hplace.
  { exists "". repeat split; auto.
    intros _. right. right. left. now apply String.eqb_eq. }
  apply String.eqb_neq in Hplace.
  destruct (chat_completions_create prompt system_msg) as [content|e]
    eqn:Hchat; cbn.
  - exists (Py.strip content). split; [reflexivity|].
    split; [apply strip_idempotent|]. split.
    + intros Hblank. do 4 right. eauto.
    + intros [H | [H | [H | [[e H] | (c & [= <-] & H)]]]];
        try discriminate; try exact H.
      * rewrite H in Hkey. discriminate.
      * contradiction.
  - exists "". repeat split; auto. intros _. do 3 right. left. eauto.
Qed.

(** ** Fenced replies *)

Section FenceFacts.
Context `{E : Env}.

Lemma strip_clean_ends (s : string) :
  starts_clean s = true -> Py.rstrip s = s -> Py.strip s = s.
Proof.
  intros Hs Hr. unfold Py.strip. now rewrite (lstrip_clean _ Hs).
Qed.

Lemma rstrip_keeps (a b : string) :
  Py.rstrip b = b /\ b <> "" ->
  Py.rstrip (a +:+ b) = a +:+ b /\ a +:+ b <> "".
Proof.
  intros [Hb Hne]. split.
  - rewrite rstrip_append_kept; [now rewrite Hb | now rewrite Hb].
  - destruct a; [exact Hne | discriminate].
Qed.

Lemma strip_fences_fenced (tag body : string) :
  tag = "" \/ tag = "json" ->
  body <> "" -> Py.strip body = body ->
  strip_fences (fenced tag body) = body.
Proof.
  intros Htag Hne Hbody.
  destruct (strip_fixed _ Hbody) as [Hl Hr].
  assert (starts_clean body = true) as Hclean
    by (rewrite <- Hl; apply lstrip_starts_clean).
  assert (Py.lstrip (Py.NL +:+ body +:+ Py.NL +:+ fence)
          = body +:+ Py.NL +:+ fence) as Hlead.
  { change (Py.lstrip (body +:+ Py.NL +:+ fence) = body +:+ Py.NL +:+ fence).
    apply lstrip_clean. destruct body; [contradiction | exact Hclean]. }
  assert (strip_trailing_fence (body +:+ Py.NL +:+ fence) = body) as Htrail.
  { unfold strip_trailing_fence.
    rewrite <- append_assoc, strip_suffix_append.
    now rewrite rstrip_append_blank. }
  assert (Py.strip (fenced tag body) = fenced tag body) as Hstrip.
  { apply strip_clean_ends; [reflexivity|]. unfold fenced.
    repeat (apply rstrip_keeps). split; [reflexivity | discriminate]. }
  unfold strip_fences. rewrite Hstrip. unfold fenced, strip_leading_fence.
  rewrite strip_prefix_append.
  destruct Htag as [-> | ->].
  - change (strip_trailing_fence
              (Py.lstrip (Py.NL +:+ body +:+ Py.NL +:+ fence)) = body).
    now rewrite Hlead.
  - rewrite strip_prefix_append.
    change (strip_trailing_fence
              (Py.lstrip (Py.NL +:+ body +:+ Py.NL +:+ fence)) = body).
    now rewrite Hlead.
Qed.

End FenceFacts.

(** X7. A reply wrapped in a Markdown fence, with the tag [json] or without
    a tag, is parsed like the text inside the fence: when that text has no
    white space at its ends and [json.loads] decodes it as an object, the
    parser returns that object with [page_number] set. *)
Theorem fenced_reply_parsed_like_body `{E : Env} (tag body : string) (n : Z)
    (d : gmap string value) :
  tag = "" \/ tag = "json" ->
  body <> "" ->
  Py.strip body = body ->
  json_loads body = Ret (VDict d) ->
  strip_fences (fenced tag body) = body
  /\ parse_llm_json (fenced tag body) n
     = Ret (<["page_number" := VInt n]> d)
  /\ (strip_fences body = body ->
      parse_llm_json body n = parse_llm_json (fenced tag body) n).
Proof.
  intros Htag Hne Hbody Hjson.
  pose proof (strip_fences_fenced tag body Htag Hne Hbody) as Hfence.
  assert (parse_llm_json (fenced tag body) n
          = Ret (<["page_number" := VInt n]> d)) as Hparse.
  { apply parse_llm_json_decoded.
    - intros H. apply (f_equal nonempty) in H. discriminate H.
    - left. now rewrite Hfence. }
  split; [exact Hfence|]. split; [exact Hparse|].
  intros Hplain. rewrite Hparse.
  apply parse_llm_json_decoded; [exact Hne|]. left. now rewrite Hplain.
Qed.

Lemma fenced_reply_parsed_like_body_witness :
  let E := example_env loader_works endpoint_down in
  parse_llm_json (fenced "" summary_json) 4
    = Ret (<["page_number" := VInt 4]> summary_x)
  /\ parse_llm_json summary_json 4
     = parse_llm_json (fenced "" summary_json) 4.
Proof.
  intros E.
  destruct (@fenced_reply_parsed_like_body E "" summary_json 4 summary_x
              (or_introl eq_refl) ltac:(discriminate) eq_refl eq_refl)
    as (_ & Hparse & Hplain).
  split; [exact Hparse | apply Hplain; reflexivity].
Defined.

(** ** Prompt sizes *)

Section PromptFacts.

Lemma len_lines_hole (pre post : list string) (x : string) :
  Py.len (lines (pre ++ x :: post))
    = (Py.len (lines (pre ++ "" :: post)) + Py.len x)%nat.
Proof.
  unfold lines. induction pre as [|p pre IH].
  - cbn [app]. destruct post as [|q post]; cbn [Py.join].
    + cbn. lia.
    + rewrite !len_append. cbn. lia.
  - cbn [app].
    assert (forall y, Py.join Py.NL (p :: pre ++ y :: post)
                      = p +:+ Py.NL +:+ Py.join Py.NL (pre ++ y :: post))
      as Hjoin by (intros y; now destruct pre).
    rewrite !Hjoin, !len_append, IH. lia.
Qed.

End PromptFacts.


(** ** The mock response *)

Section MockFacts.



End MockFacts.


(** ** Chunks and pages *)

Section PackingFacts.
Context `{E : Env}.

(** What the packing loop keeps true of the chunks it has emitted and of the
    chunk it is filling, for a fixed list of paragraphs. *)
Lemma pack_step_bound (limit : nat) (paragraphs : list string)
    (todo : list string) (chunks : list string) (current : string) :
  (forall p, p ∈ todo -> p ∈ paragraphs) ->
  Forall (fun c => (Py.len c <= limit + 2)%nat
                   \/ c ∈ Py.strip <$> paragraphs) chunks ->
  ((Py.len current <= limit + 2)%nat \/ current ∈ paragraphs) ->
  let '(chunks', current') := foldl (pack_step limit) (chunks, current) todo in
  Forall (fun c => (Py.len c <= limit + 2)%nat
                   \/ c ∈ Py.strip <$> paragraphs) chunks'
  /\ ((Py.len current' <= limit + 2)%nat \/ current' ∈ paragraphs).
Proof.
  revert chunks current.
  induction todo as [|para todo IH]; intros chunks current Hin Hchunks Hcur.
  - cbn. now split.
  - cbn [foldl]. unfold pack_step at 2.
    assert (forall p, p ∈ todo -> p ∈ paragraphs) as Hin'
      by (intros p Hp; apply Hin; now right).
    assert (para ∈ paragraphs) as Hpara by (apply Hin; now left).
    destruct (Nat.ltb limit (Py.len current + Py.len para)) eqn:Hfull;
      destruct (nonempty current) eqn:Hne; cbn [andb].
    + apply IH; [exact Hin'| |now right].
      apply Forall_app. split; [exact Hchunks|].
      constructor; [|constructor].
      destruct Hcur as [Hlen | Hmem].
      * left. pose proof (len_strip current). lia.
      * right. now apply list_elem_of_fmap_2.
    + apply IH; [exact Hin'|exact Hchunks|now right].
    + apply IH; [exact Hin'|exact Hchunks|].
      left. apply Nat.ltb_ge in Hfull.
      rewrite !len_append. change (Py.len blank_line) with 2%nat. lia.
    + apply IH; [exact Hin'|exact Hchunks|now right].
Qed.

Lemma pack_paragraphs_bound (limit : nat) (text c : string) :
  c ∈ pack_paragraphs limit text ->
  (Py.len c <= limit + 2)%nat
  \/ c ∈ Py.strip <$> Py.split_blank_line text
  \/ c = text.
Proof.
  unfold pack_paragraphs.
  pose proof (pack_step_bound limit (Py.split_blank_line text)
                (Py.split_blank_line text) [] "" (fun p Hp => Hp)
                (Forall_nil_2 _) (or_introl (Nat.le_0_l _))) as Hinv.
  destruct (foldl _ _ _) as [chunks current].
  destruct Hinv as [Hchunks Hcur].
  assert (Forall (fun c => (Py.len c <= limit + 2)%nat
                           \/ c ∈ Py.strip <$> Py.split_blank_line text)
            (if nonempty (Py.strip current)
             then chunks ++ [Py.strip current] else chunks)) as Hall.
  { destruct (nonempty (Py.strip current)); [|exact Hchunks].
    apply Forall_app. split; [exact Hchunks|].
    constructor; [|constructor].
    destruct Hcur as [Hlen | Hmem].
    - left. pose proof (len_strip current). lia.
    - right. now apply list_elem_of_fmap_2. }
  destruct (if nonempty (Py.strip current) then _ else _) as [|c0 cs].
  - intros ->%list_elem_of_singleton. now right; right.
  - intros Hc. rewrite Forall_forall in Hall.
    destruct (Hall c Hc) as [H|H]; [now left | now right; left].
Qed.

Lemma pack_paragraphs_nonempty (limit : nat) (text : string) :
  pack_paragraphs limit text <> [].
Proof.
  unfold pack_paragraphs. destruct (foldl _ _ _) as [chunks current].
  destruct (if nonempty (Py.strip current) then _ else _); discriminate.
Qed.

Lemma segment_pages_nonempty (text : string) (limit : nat)
    (pages : list string) :
  segment_pages text limit = Ret pages -> pages <> [].
Proof.
  unfold segment_pages.
  destruct (_ || _)%bool; [intros [= <-]; discriminate|].
  destruct (re_split_page_breaks text) as [pieces|e]; cbn;
    [|intros [= <-]; discriminate].
  match goal with |- context [if ?b then _ else _] => destruct b eqn:Hb end.
  - intros [= <-] Hnil. rewrite Hnil in Hb. discriminate Hb.
  - intros [= <-]. apply pack_paragraphs_nonempty.
Qed.

End PackingFacts.

(** X10. [chunk_text] never raises.  A blank text gives no chunk.  With the
    LangChain splitter, a splitter that raises gives the whole text as one
    chunk.  Without it, a text that is not blank gives at least one chunk,
    and every chunk has at most [chunk_size + 2] characters unless it is a
    single paragraph of the text, stripped, or the text itself. *)
Theorem chunk_text_degrades `{E : Env} (text : string)
    (chunk_size chunk_overlap : nat) :
  exists chunks,
    chunk_text text chunk_size chunk_overlap = Ret chunks
    /\ (Py.strip text = "" -> chunks = [])
    /\ (Py.strip text <> "" -> HAS_LANGCHAIN = true ->
        forall e, splitter_split_text chunk_size chunk_overlap text = Raise e ->
        chunks = [text])
    /\ (Py.strip text <> "" -> HAS_LANGCHAIN = false ->
        chunks <> []
        /\ forall c, c ∈ chunks ->
             (Py.len c <= chunk_size + 2)%nat
             \/ c ∈ Py.strip <$> Py.split_blank_line text
             \/ c = text).
Proof.
  destruct (Py.strip text) as [|x rest] eqn:Hstrip.
  - exists []. split; [now apply chunk_text_blank|].
    repeat split; try reflexivity; contradiction.
  - assert (chunk_text text chunk_size chunk_overlap =
              try_except
                (if HAS_LANGCHAIN
                 then splitter_split_text chunk_size chunk_overlap text
                 else Ret (pack_paragraphs chunk_size text))
                (fun _ => Ret [text])) as Heq.
    { unfold chunk_text. rewrite Hstrip.
      destruct text; [discriminate Hstrip | reflexivity]. }
    rewrite Heq. destruct HAS_LANGCHAIN.
    + destruct (splitter_split_text chunk_size chunk_overlap text)
        as [cs|e] eqn:Hsplit; cbn; eexists; (split; [reflexivity|]);
        repeat split; try discriminate; congruence.
    + cbn. eexists. split; [reflexivity|].
      split; [discriminate|]. split; [discriminate|].
      intros _ _. split; [apply pack_paragraphs_nonempty|].
      intros c Hc. now apply pack_paragraphs_bound.
Qed.

(** Three paragraphs and a chunk size of 10: each paragraph is its own
    chunk. *)
Lemma chunk_text_degrades_witness :
  let E := example_env loader_works endpoint_down in
  let text := "Para one." +:+ blank_line +:+ "Para two." +:+ blank_line
                +:+ "Para three." in
  chunk_text text 10 0 = Ret ["Para one."; "Para two."; "Para three."]
  /\ forall c, c ∈ ["Para one."; "Para two."; "Para three."] ->
       (Py.len c <= 10 + 2)%nat
       \/ c ∈ Py.strip <$> Py.split_blank_line text
       \/ c = text.
Proof.
  intros E text.
  destruct (@chunk_text_degrades E text 10 0) as (chunks & Hc & _ & _ & Hb).
  assert (chunks = ["Para one."; "Para two."; "Para three."]) as ->
    by (apply (inj Ret); rewrite <- Hc; vm_compute; reflexivity).
  split; [exact Hc|].
  apply Hb; [discriminate | reflexivity].
Defined.

(** X11. [process_document] never returns an empty list of pages, and the
    pages are numbered 1, 2, 3, ... in order; a blank document is one page.
    [segment_pages] itself never raises and never returns an empty list. *)
Theorem process_document_pages_numbered `{E : Env}
    (text audience user_id : string) (w : world) :
  exists segments pages w',
    segment_pages text 3000 = Ret segments
    /\ segments <> []
    /\ (Py.strip text = "" -> segments = [text])
    /\ process_document text audience user_id w
       = (Ret (pages_object pages), w')
    /\ length pages = length segments
    /\ forall i page,
         pages !! i = Some page ->
         page !! "page_number" = Some (VInt (Z.of_nat i + 1)).
Proof.
  destruct (segment_pages_returns text 3000) as [segments Hseg].
  destruct (process_document_pages text audience user_id w segments Hseg)
    as (vs & w' & pages & _ & Hp & Hlen & Hres).
  exists segments, pages, w'.
  split; [exact Hseg|].
  split; [now apply (segment_pages_nonempty text 3000)|].
  split.
  { intros Hblank. unfold segment_pages in Hseg. rewrite Hblank in Hseg.
    cbn [nonempty negb] in Hseg. rewrite orb_true_r in Hseg.
    now injection Hseg as <-. }
  split; [exact Hp|]. split; [exact Hlen|].
  intros i page Hpage.
  destruct (lookup_lt_is_Some_2 segments i) as [segment Hsegment].
  { rewrite <- Hlen. now apply lookup_lt_Some in Hpage. }
  destruct (Hres i segment Hsegment) as (r & Hr & Hs).
  rewrite Hpage in Hr. injection Hr as <-.
  destruct (simplify_page_returns segment (Z.of_nat i + 1) audience vs)
    as (r' & Hs' & Hnum & _).
  rewrite Hs in Hs'. now injection Hs' as <-.
Qed.

(** ** Results that carry the model's object *)

Section SpreadFacts.

Lemma spread_success_dom (d : gmap string value) :
  dom (spread {[ "success" := VBool true ]} d) = dom d ∪ {[ "success" ]}.
Proof. unfold spread. now rewrite dom_union_L, dom_singleton_L. Qed.

Lemma spread_success_default (d : gmap string value) :
  d !! "success" = None ->
  spread {[ "success" := VBool true ]} d !! "success" = Some (VBool true).
Proof.
  intros Hs. unfold spread. rewrite lookup_union_r by exact Hs.
  apply lookup_singleton_eq.
Qed.

Lemma spread_passes_through (d : gmap string value) :
  passes_through d (spread {[ "success" := VBool true ]} d).
Proof.
  split; [|split].
  - intros key v. apply spread_success_lookup.
  - apply spread_success_default.
  - apply spread_success_dom.
Qed.

End SpreadFacts.

(** X12. When the parsed reply has the key its flow looks for ([answer],
    [summary], [key_points]), the result is the model's object with
    [success] added: every entry the model wrote is passed on unchanged, a
    [success] entry written by the model included, and [success] is true
    when the model wrote none. *)
Theorem model_entries_pass_through `{E : Env} (raw : string)
    (d : gmap string value) :
  parse_llm_json raw 1 = Ret d ->
  (forall text question user_id w,
     (forall prompt, call_perplexity prompt ask_system_msg = Ret raw) ->
     has_key "answer" d = true ->
     exists r w',
       ask_document text question user_id w = (Ret r, w')
       /\ passes_through d r)
  /\ (forall text,
        call_perplexity (summarize_prompt text) summarize_system_msg
          = Ret raw ->
        has_key "summary" d = true ->
        exists r, summarize_text text = Ret r /\ passes_through d r)
  /\ (forall text user_id w,
        call_perplexity (extract_prompt (Py.take 5000 text))
          extract_system_msg = Ret raw ->
        has_key "key_points" d = true ->
        exists r w',
          extract_key_points text user_id w = (Ret r, w')
          /\ passes_through d r).
Proof.
  intros Hd. split; [|split].
  - intros text question user_id w Hreply Hkey.
    destruct (ask_document_reply text question user_id w)
      as (vs & w' & context & raw' & d' & _ & Hraw' & Hd' & Hask).
    rewrite Hreply in Hraw'. injection Hraw' as <-.
    rewrite Hd in Hd'. injection Hd' as <-.
    rewrite Hkey, (has_key_truthy _ _ Hkey) in Hask.
    eexists _, w'. split; [exact Hask | apply spread_passes_through].
  - intros text Hreply Hkey.
    destruct (summarize_text_reply text) as (raw' & d' & Hraw' & Hd' & Hsum).
    rewrite Hreply in Hraw'. injection Hraw' as <-.
    rewrite Hd in Hd'. injection Hd' as <-.
    rewrite Hkey, (has_key_truthy _ _ Hkey) in Hsum.
    eexists. split; [exact Hsum | apply spread_passes_through].
  - intros text user_id w Hreply Hkey.
    destruct (extract_key_points_reply text user_id w)
      as (vs & w' & raw' & d' & _ & Hraw' & Hd' & Hext).
    rewrite Hreply in Hraw'. injection Hraw' as <-.
    rewrite Hd in Hd'. injection Hd' as <-.
    rewrite Hkey, (has_key_truthy _ _ Hkey) in Hext.
    eexists _, w'. split; [exact Hext | apply spread_passes_through].
Qed.

(** A model that answers and writes [success] false: the answer object says
    [success] false. *)
Lemma model_entries_pass_through_witness :
  let reply := "{" +:+ quoted "answer" +:+ ": " +:+ quoted "Not stated."
                 +:+ ", " +:+ quoted "success" +:+ ": false}" in
  let E := example_env loader_works (fun _ _ => Ret reply) in
  exists r w',
    ask_document "The launch moved to May." "Who leads it?" "u1"
      initial_world = (Ret r, w')
    /\ r !! "success" = Some (VBool false)
    /\ r !! "answer" = Some (VStr "Not stated.").
Proof.
  intros reply E.
  assert (parse_llm_json reply 1
          = Ret (<["answer" := VStr "Not stated."]>
                 (<["success" := VBool false]>
                 (<["page_number" := VInt 1]> ∅)))) as Hparse
    by (vm_compute; reflexivity).
  destruct (proj1 (@model_entries_pass_through E reply _ Hparse)
              "The launch moved to May." "Who leads it?" "u1" initial_world)
    as (r & w' & Hask & Hpass & _);
    [intros prompt; reflexivity | reflexivity |].
  exists r, w'. split; [exact Hask|].
  split; apply Hpass; reflexivity.
Defined.

(** ** The fallbacks that read the document itself *)

Section FallbackFacts.





End FallbackFacts.





(** ** Replies in prose *)

Section ProseFacts.
Context `{E : Env}.

Lemma parse_prose (raw msg : string) (n : Z) :
  raw <> "" ->
  json_loads (strip_fences raw) = Raise (JSONDecodeError msg) ->
  search_braces raw = None ->
  parse_llm_json raw n = Ret (raw_as_section (Py.take 1500 raw) n).
Proof.
  intros Hraw Hjson Hbraces. unfold parse_llm_json.
  rewrite (nonempty_true _ Hraw), Hjson, Hbraces. reflexivity.
Qed.

End ProseFacts.

(** X15. A reply that is not JSON and holds no pair of braces is used as
    text, cut at 1500 characters.  As a page it becomes the page's
    simplified text under the title "Section n"; as an answer it is returned
    with confidence "medium" and no excerpt; as a summary it is returned
    with its word count; as an extraction it is discarded for the fallback
    points. *)
Theorem prose_reply_used_as_text `{E : Env} (raw msg : string) :
  raw <> "" ->
  json_loads (strip_fences raw) = Raise (JSONDecodeError msg) ->
  search_braces raw = None ->
  (forall page n audience vs,
     page_reply page n audience vs = Ret raw ->
     simplify_page page n audience vs
       = Ret (raw_as_section (Py.take 1500 raw) n))
  /\ (forall text question user_id w,
        (forall prompt, call_perplexity prompt ask_system_msg = Ret raw) ->
        exists w',
          ask_document text question user_id w =
            (Ret (answer_object true (VStr (Py.take 1500 raw)) "medium" ""),
             w'))
  /\ (forall text,
        call_perplexity (summarize_prompt text) summarize_system_msg
          = Ret raw ->
        summarize_text text =
          Ret (summary_object true (VStr (Py.take 1500 raw))
                 (Z.of_nat (length (Py.split (Py.take 1500 raw))))))
  /\ (forall text user_id w,
        call_perplexity (extract_prompt (Py.take 5000 text))
          extract_system_msg = Ret raw ->
        exists w',
          extract_key_points text user_id w =
            (Ret (extraction_object true (fallback_points text)
                    "Document analysis"), w')).
Proof.
  intros Hraw Hjson Hbraces.
  pose proof (fun n => parse_prose raw msg n Hraw Hjson Hbraces) as Hparse.
  split; [|split; [|split]].
  - intros page n audience vs Hreply.
    rewrite (simplify_page_reply _ _ _ _ _ Hreply).
    now rewrite (nonempty_true _ Hraw), Hparse.
  - intros text question user_id w Hreply.
    destruct (ask_document_reply text question user_id w)
      as (vs & w' & context & raw' & d' & _ & Hraw' & Hd' & Hask).
    rewrite Hreply in Hraw'. injection Hraw' as <-.
    rewrite Hparse in Hd'. injection Hd' as <-.
    exists w'. exact Hask.
  - intros text Hreply.
    destruct (summarize_text_reply text) as (raw' & d' & Hraw' & Hd' & Hres).
    rewrite Hreply in Hraw'. injection Hraw' as <-.
    rewrite Hparse in Hd'. injection Hd' as <-.
    exact Hres.
  - intros text user_id w Hreply.
    destruct (extract_key_points_reply text user_id w)
      as (vs & w' & raw' & d' & _ & Hraw' & Hd' & Hext).
    rewrite Hreply in Hraw'. injection Hraw' as <-.
    rewrite Hparse in Hd'. injection Hd' as <-.
    exists w'. exact Hext.
Qed.

(** A model that declines in prose: the sentence is the answer. *)
Lemma prose_reply_used_as_text_witness :
  let reply := "I cannot tell from this document." in
  let E := example_env loader_works (fun _ _ => Ret reply) in
  exists w',
    ask_document "The launch moved to May." "Who leads it?" "u1"
      initial_world =
      (Ret (answer_object true (VStr reply) "medium" ""), w').
Proof.
  intros reply E.
  destruct (@prose_reply_used_as_text E reply
              "Expecting value")
    as (_ & Hask & _).
  - discriminate.
  - vm_compute. reflexivity.
  - reflexivity.
  - apply (Hask "The launch moved to May." "Who leads it?" "u1" initial_world).
    intros prompt. reflexivity.
Defined.

(** ** The request handlers *)

Section RequestFacts.
Context `{E : Env}.

Lemma simplify_page_req_none (page : string) (n : Z) (vs : option index) :
  simplify_page_req page n None vs = Ret (mock_body page n "None").
Proof.
  unfold simplify_page_req. destruct vs as [vs|]; [|reflexivity].
  destruct (retrieve_context_returns (Some vs) page 4) as [c ->]. reflexivity.
Qed.

Lemma simplify_page_req_returns (page : string) (n : Z)
    (audience : option string) (vs : option index) :
  exists r, simplify_page_req page n audience vs = Ret r.
Proof.
  destruct audience as [a|].
  - destruct (simplify_page_returns page n a vs) as (r & Hr & _). eauto.
  - rewrite simplify_page_req_none. eauto.
Qed.

(** [process_document] for a request, page by page. *)
Lemma process_document_req_pages (text : string) (audience : option string)
    (user_id : string) (w : world) (pages : list string) :
  segment_pages text 3000 = Ret pages ->
  exists vs w' results,
    build_vector_store text user_id w = (Ret vs, w')
    /\ process_document_req text audience user_id w
       = (Ret (pages_object results), w')
    /\ length results = length pages
    /\ forall i page,
         pages !! i = Some page ->
         exists r,
           results !! i = Some r
           /\ simplify_page_req page (Z.of_nat i + 1) audience vs = Ret r.
Proof.
  intros Hseg.
  destruct (build_vector_store_guarded text user_id w) as (vs & w' & Hg & Hb).
  unfold process_document_req, mbind, call. rewrite Hg, Hseg.
  cbn [try_except].
  rewrite asyncio_gather_in_order.
  set (tasks := imap _ pages).
  destruct (collect_results_spec pages (format_audience audience) tasks 0)
    as (final & Hf & Hlen & Hlook).
  { subst tasks. rewrite length_imap. lia. }
  rewrite Hf. cbn.
  exists vs, w', final. split; [exact Hb|]. split; [reflexivity|].
  split; [subst tasks; now rewrite Hlen, length_imap|].
  intros i page Hpage.
  destruct (simplify_page_req_returns page (Z.of_nat i + 1) audience vs)
    as (r & Hr).
  exists r. split; [|exact Hr].
  rewrite (Hlook i (Ret r) page); [reflexivity| |exact Hpage].
  subst tasks. rewrite list_lookup_imap, Hpage. cbn. now rewrite Hr.
Qed.

Lemma or_default_nonempty (user_id : option string) :
  nonempty (or_default user_id) = true.
Proof.
  destruct user_id as [u|]; [|reflexivity].
  unfold or_default. destruct (nonempty u) eqn:Hu; [exact Hu | reflexivity].
Qed.

Lemma sanitize_nonempty (user_id : string) :
  nonempty (sanitize_user_id user_id) = nonempty user_id.
Proof. now destruct user_id. Qed.

Lemma store_path_confined (user_id : string) :
  nonempty user_id = true ->
  confined (SaveLocal (path_div VECTOR_STORE_DIR (sanitize_user_id user_id))).
Proof.
  intros Hne. exists (sanitize_user_id user_id).
  pose proof (sanitize_safe user_id) as Hsafe.
  pose proof (sanitize_nonempty user_id) as Hnon. rewrite Hne in Hnon.
  split; [unfold matches_safe_id; now rewrite Hnon, Hsafe|].
  destruct (sanitize_user_id user_id) as [|c s]; [discriminate Hnon|].
  cbn [Py.all_chars] in Hsafe. apply andb_prop in Hsafe as [Hc _].
  unfold path_div.
  destruct (Ascii.eqb_spec c "/") as [->|_]; [discriminate Hc | reflexivity].
Qed.

Lemma get_embeddings_accounted (w : world) :
  attempt_accounted w -> attempt_accounted (snd (get_embeddings w)).
Proof.
  intros [[Ht Hc]|Hs].
  - destruct (_embeddings w) as [emb|] eqn:H1.
    + rewrite (get_embeddings_cached _ _ H1). now left.
    + destruct (get_embeddings_first w H1 Ht) as (Ht' & Hc' & _).
      right. split; [exact Ht' | lia].
  - right. now apply get_embeddings_settled.
Qed.

Lemma get_embeddings_keeps (w : world) (emb : embedder) :
  _embeddings w = Some emb ->
  _embeddings (snd (get_embeddings w)) = Some emb
  /\ loader_calls (snd (get_embeddings w)) = loader_calls w.
Proof. intros H. now rewrite (get_embeddings_cached _ _ H). Qed.

Lemma step_ok_globals (user_id : string) (w w1 : world)
    (evs : list fs_event) :
  w1 = snd (get_embeddings w) ->
  Forall (fun ev => ev = SaveLocal (path_div VECTOR_STORE_DIR
                                      (sanitize_user_id user_id))) evs ->
  step_ok user_id w
    {| _embeddings := _embeddings w1;
       _embeddings_init_attempted := _embeddings_init_attempted w1;
       loader_calls := loader_calls w1;
       fs_trace := fs_trace w1 ++ evs |}.
Proof.
  intros -> Hevs. split; [|split].
  - exists evs. split; [|exact Hevs].
    change (fs_trace (snd (get_embeddings w)) ++ evs = fs_trace w ++ evs).
    now rewrite get_embeddings_fs_trace.
  - intros Hacc. apply get_embeddings_accounted in Hacc.
    destruct Hacc as [[Ht Hc]|[Ht Hc]]; [left | right]; split; assumption.
  - intros emb Hemb. now apply get_embeddings_keeps.
Qed.

Lemma step_ok_same (user_id : string) (w w1 : world) :
  w1 = snd (get_embeddings w) -> step_ok user_id w w1.
Proof.
  intros ->. split; [|split].
  - exists []. now rewrite app_nil_r, get_embeddings_fs_trace.
  - apply get_embeddings_accounted.
  - intros emb. apply get_embeddings_keeps.
Qed.

Lemma step_ok_refl (user_id : string) (w : world) : step_ok user_id w w.
Proof.
  split; [|split]; [|auto..]. exists []. now rewrite app_nil_r.
Qed.

Lemma build_vector_store_step (text user_id : string) (w : world) :
  exists r w',
    build_vector_store text user_id w = (Ret r, w') /\ step_ok user_id w w'.
Proof.
  unfold build_vector_store.
  destruct HAS_FAISS; cbn [negb];
    [|do 2 eexists; split; [reflexivity | apply step_ok_refl]].
  unfold mbind at 1.
  pose proof (get_embeddings_returns w) as [r Hr].
  destruct (get_embeddings w) as [o w1] eqn:Hget. cbn in Hr. subst o.
  assert (w1 = snd (get_embeddings w)) as Hw1 by now rewrite Hget.
  clear Hget.
  destruct r as [emb|];
    [|do 2 eexists; split; [reflexivity | now apply step_ok_same]].
  unfold mtry, mbind, call, mret, log_fs, modify.
  destruct (chunk_text text 1000 200) as [[|c chunks]|e];
    try (do 2 eexists; split; [reflexivity | now apply step_ok_same]).
  destruct (FAISS_from_texts (c :: chunks) emb) as [vs|e];
    [|do 2 eexists; split; [reflexivity | now apply step_ok_same]].
  destruct (save_local vs _) as [[]|e];
    (do 2 eexists; split; [reflexivity|];
     apply step_ok_globals; [exact Hw1 | repeat constructor]).
Qed.

End RequestFacts.

Section ServeFacts.
Context `{E : Env}.

Lemma respond_engine_result (m : M (gmap string value))
    (handler : exception -> M response) (w w' : world)
    (body : gmap string value) :
  m w = (Ret body, w') ->
  mtry (result <- m ;; mret (Responds result)) handler w
    = (Ret (Responds body), w').
Proof. intros H. apply mtry_ret. now rewrite (mbind_ret _ _ _ _ _ H). Qed.

(** The engine call of a request returns, after a change of the world that
    [build_vector_store] may make for a user id that is not empty. *)
Lemma engine_call_returns (req : request) (w : world) :
  exists body w' user_id,
    engine_call req w = (Ret body, w')
    /\ nonempty user_id = true
    /\ step_ok user_id w w'.
Proof.
  destruct req as [r|r|r|r]; cbn [engine_call].
  - destruct (segment_pages_returns (ProcessRequest.text r) 3000)
      as [pages Hseg].
    destruct (process_document_req_pages (ProcessRequest.text r)
                (ProcessRequest.audience_level r)
                (or_default (ProcessRequest.user_id r)) w pages Hseg)
      as (vs & w' & results & Hb & Hp & _).
    destruct (build_vector_store_step (ProcessRequest.text r)
                (or_default (ProcessRequest.user_id r)) w)
      as (vs' & w'' & Hb' & Hstep).
    rewrite Hb in Hb'. injection Hb' as _ <-.
    eexists _, w', _. split; [exact Hp|].
    split; [apply or_default_nonempty | exact Hstep].
  - destruct (ask_document_reply (AskRequest.text r) (AskRequest.question r)
                (or_default (AskRequest.user_id r)) w)
      as (vs & w' & context & raw & d & Hb & _ & _ & Hask).
    destruct (build_vector_store_step (AskRequest.text r)
                (or_default (AskRequest.user_id r)) w)
      as (vs' & w'' & Hb' & Hstep).
    rewrite Hb in Hb'. injection Hb' as _ <-.
    eexists _, w', _. split; [exact Hask|].
    split; [apply or_default_nonempty | exact Hstep].
  - destruct (summarize_text_reply (SummarizeRequest.text r))
      as (raw & d & _ & _ & Hsum).
    eexists _, w, "default". unfold call. rewrite Hsum.
    split; [reflexivity|]. split; [reflexivity | apply step_ok_refl].
  - destruct (extract_key_points_reply (ExtractRequest.text r)
                (or_default (ExtractRequest.user_id r)) w)
      as (vs & w' & raw & d & Hb & _ & _ & Hext).
    destruct (build_vector_store_step (ExtractRequest.text r)
                (or_default (ExtractRequest.user_id r)) w)
      as (vs' & w'' & Hb' & Hstep).
    rewrite Hb in Hb'. injection Hb' as _ <-.
    eexists _, w', _. split; [exact Hext|].
    split; [apply or_default_nonempty | exact Hstep].
Qed.

Lemma serve_blank (req : request) (w : world) :
  blank_request req = true ->
  exists detail, serve req w = (Ret (HTTPException 400 detail), w).
Proof.
  destruct req as [r|r|r|r]; cbn [blank_request serve];
    unfold process_text_endpoint, ask_endpoint, summarize_endpoint,
      extract_endpoint.
  - intros ->. eauto.
  - destruct (negb (nonempty (Py.strip (AskRequest.text r)))); cbn [orb].
    + intros _. eauto.
    + intros ->. eauto.
  - intros ->. eauto.
  - intros ->. eauto.
Qed.

Lemma serve_engine (req : request) (w w' : world) (body : gmap string value) :
  blank_request req = false ->
  engine_call req w = (Ret body, w') ->
  serve req w = (Ret (Responds body), w').
Proof.
  destruct req as [r|r|r|r]; cbn [blank_request serve engine_call];
    unfold process_text_endpoint, ask_endpoint, summarize_endpoint,
      extract_endpoint.
  - intros -> H. now apply respond_engine_result.
  - intros [-> ->]%orb_false_elim H. now apply respond_engine_result.
  - intros -> H. now apply respond_engine_result.
  - intros -> H. now apply respond_engine_result.
Qed.

Lemma serve_step (req : request) (w : world) :
  exists user_id,
    nonempty user_id = true /\ step_ok user_id w (snd (serve req w)).
Proof.
  destruct (blank_request req) eqn:Hblank.
  - destruct (serve_blank req w Hblank) as [detail ->].
    exists "default". split; [reflexivity | apply step_ok_refl].
  - destruct (engine_call_returns req w)
      as (body & w' & user_id & Hcall & Hne & Hstep).
    rewrite (serve_engine req w w' body Hblank Hcall).
    exists user_id. split; [exact Hne | exact Hstep].
Qed.

Lemma serve_all_app (reqs more : list request) (w : world) :
  serve_all (reqs ++ more) w = serve_all more (serve_all reqs w).
Proof. unfold serve_all. apply foldl_app. Qed.

Lemma serve_all_confined (reqs : list request) (w : world) :
  Forall confined (fs_trace w) -> Forall confined (fs_trace (serve_all reqs w)).
Proof.
  revert w. induction reqs as [|req reqs IH]; intros w Hw; [exact Hw|].
  cbn [serve_all foldl]. apply IH.
  destruct (serve_step req w) as (user_id & Hne & (evs & -> & Hevs) & _).
  apply Forall_app. split; [exact Hw|].
  eapply Forall_impl; [exact Hevs|]. intros ev ->.
  now apply store_path_confined.
Qed.

Lemma serve_all_accounted (reqs : list request) (w : world) :
  attempt_accounted w -> attempt_accounted (serve_all reqs w).
Proof.
  revert w. induction reqs as [|req reqs IH]; intros w Hw; [exact Hw|].
  cbn [serve_all foldl]. apply IH.
  destruct (serve_step req w) as (user_id & _ & _ & Hacc & _). auto.
Qed.

Lemma serve_all_keeps (reqs : list request) (w : world) (emb : embedder) :
  _embeddings w = Some emb ->
  _embeddings (serve_all reqs w) = Some emb
  /\ loader_calls (serve_all reqs w) = loader_calls w.
Proof.
  revert w. induction reqs as [|req reqs IH]; intros w Hw; [now split|].
  cbn [serve_all foldl].
  destruct (serve_step req w) as (user_id & _ & _ & _ & Hkeep).
  destruct (Hkeep emb Hw) as [Hemb Hcalls].
  destruct (IH _ Hemb) as [Hemb' Hcalls'].
  split; [exact Hemb' | now rewrite <- Hcalls].
Qed.

End ServeFacts.

(** X16. A handler lets no exception of the engine escape and never uses
    its own [except] branch: a request with a blank text (or, for [/ask], a
    blank question) is refused with status 400 and leaves the globals and
    the disk as they were; every
    other request is answered with exactly what the engine returns for the
    request's text and for its user id, or "default" when the user id is
    missing or empty. *)
Theorem serve_returns_engine_result `{E : Env} (req : request) (w : world) :
  exists resp w',
    serve req w = (Ret resp, w')
    /\ match resp with
       | HTTPException status_code _ =>
           status_code = 400 /\ blank_request req = true /\ w' = w
       | Responds body =>
           blank_request req = false /\ engine_call req w = (Ret body, w')
       end.
Proof.
  destruct (blank_request req) eqn:Hblank.
  - destruct (serve_blank req w Hblank) as [detail Hserve].
    exists (HTTPException 400 detail), w. now rewrite Hserve.
  - destruct (engine_call_returns req w) as (body & w' & _ & Hcall & _).
    exists (Responds body), w'.
    now rewrite (serve_engine req w w' body Hblank Hcall).
Qed.

(** X17. Whatever requests a fresh process serves, and whatever user ids
    they carry, each use of the file system that the handlers make is a
    [save_local] to a directory directly below [VECTOR_STORE_DIR] whose name
    is not empty and made of letters, digits, underscore and hyphen: no
    request reads an index back, and none writes at or outside the store
    directory. *)
Theorem requests_write_only_below_store_dir `{E : Env}
    (reqs : list request) :
  Forall confined (fs_trace (serve_all reqs initial_world)).
Proof. apply serve_all_confined. constructor. Qed.

(** X18. Whatever requests a fresh process serves, the embedding model is
    constructed at most once over all of them, and once a model is loaded
    every later request finds the same one. *)
Theorem requests_load_embeddings_at_most_once `{E : Env}
    (reqs : list request) :
  (loader_calls (serve_all reqs initial_world) <= 1)%nat
  /\ forall emb more,
       _embeddings (serve_all reqs initial_world) = Some emb ->
       _embeddings (serve_all (reqs ++ more) initial_world) = Some emb
       /\ loader_calls (serve_all (reqs ++ more) initial_world)
          = loader_calls (serve_all reqs initial_world).
Proof.
  assert (forall w, attempt_accounted w -> (loader_calls w <= 1)%nat) as Hle.
  { intros w [[_ ->]|[_ Hc]]; lia. }
  split.
  - apply Hle, serve_all_accounted. now left.
  - intros emb more Hemb. rewrite serve_all_app.
    now apply serve_all_keeps.
Qed.

(** A hostile user id, served by a process whose loader works: the only use
    of the disk is one save below the store directory. *)
Example serve_hostile_user_id :
  let E := example_env loader_works endpoint_down in
  fs_trace
    (serve_all
       [PostExtract (ExtractRequest.Build "The launch moved to May."
                       (Some "../../etc"));
        PostSummarize (SummarizeRequest.Build "The launch moved to May.");
        PostAsk (AskRequest.Build "   " "When?" None)]
       initial_world)
  = [SaveLocal "/app/vector_stores/______etc"].
Proof. vm_compute. reflexivity. Qed.

(** X19. A [/process] request whose [audience_level] is [null] is answered
    without the model: every page of the document comes back as the mock
    page of its text, numbered from one, whose closing line names the
    audience "None", whatever the model would have replied. *)
Theorem process_without_audience_uses_mock `{E : Env} (r : ProcessRequest.t)
    (w : world) (pages : list string) :
  nonempty (Py.strip (ProcessRequest.text r)) = true ->
  ProcessRequest.audience_level r = None ->
  segment_pages (ProcessRequest.text r) 3000 = Ret pages ->
  exists w',
    process_text_endpoint r w =
      (Ret (Responds
              (pages_object
                 (imap (fun i page => mock_body page (Z.of_nat i + 1) "None")
                       pages))),
       w').
Proof.
  intros Htext Haud Hseg.
  destruct (process_document_req_pages (ProcessRequest.text r) None
              (or_default (ProcessRequest.user_id r)) w pages Hseg)
    as (vs & w' & results & _ & Hp & Hlen & Hres).
  assert (results
          = imap (fun i page => mock_body page (Z.of_nat i + 1) "None") pages)
    as ->.
  { apply list_eq. intros i. rewrite list_lookup_imap.
    destruct (pages !! i) as [page|] eqn:Hpage; cbn.
    - destruct (Hres i page Hpage) as (body & -> & Hbody).
      rewrite simplify_page_req_none in Hbody. now injection Hbody as <-.
    - apply lookup_ge_None. rewrite Hlen. now apply lookup_ge_None. }
  exists w'. apply (serve_engine (PostProcess r)).
  - cbn [blank_request]. now rewrite Htext.
  - cbn [engine_call]. now rewrite Haud.
Qed.

(** A model that would answer with a valid page is not asked. *)
Lemma process_without_audience_uses_mock_witness :
  let E := example_env loader_works (fun _ _ => Ret first_page_json) in
  exists w',
    process_text_endpoint
      (ProcessRequest.Build "The launch moved to May." None (Some "u1"))
      initial_world =
      (Ret (Responds
              (pages_object
                 [mock_body "The launch moved to May." 1 "None"])), w').
Proof.
  intros E.
  apply (@process_without_audience_uses_mock E
           (ProcessRequest.Build "The launch moved to May." None (Some "u1"))
           initial_world ["The launch moved to May."]); reflexivity.
Defined.

(** X20. The prompts of [simplify_page] and [ask_document] embed a bounded
    part of the retrieved context: at most its first 2000 characters for a
    page and its first 3000 for a question, or the first 3000 characters of
    the document when there is no context.  The page prompt grows with the
    context by at most 2076 characters, and the context block of a question
    has at most 3067. *)
Theorem page_and_ask_prompts_bound_context `{E : Env}
    (page_text context text question audience : string) (page_number : Z) :
  build_simplification_prompt page_text context page_number audience
    = build_simplification_prompt page_text (Py.take 2000 context)
        page_number audience
  /\ Py.len (build_simplification_prompt page_text context page_number
               audience)
     = (Py.len (build_simplification_prompt page_text "" page_number audience)
        + if nonempty context then 76 + Nat.min 2000 (Py.len context)
          else 0)%nat
  /\ ask_context_block context text
     = ask_context_block (Py.take 3000 context) (Py.take 3000 text)
  /\ Py.len (ask_context_block context text)
     = (if nonempty context then 67 + Nat.min 3000 (Py.len context)
        else if nonempty text then 40 + Nat.min 3000 (Py.len text)
        else 0)%nat.
Proof.
  split; [|split; [|split]].
  - unfold build_simplification_prompt.
    now rewrite take_take, (nonempty_take 1999 context).
  - unfold build_simplification_prompt.
    set (block := if nonempty context then _ else _).
    match goal with
    | |- Py.len (lines (?a :: ?b :: ?c :: ?d :: ?e :: ?f :: ?g :: block
                          :: ?post)) = _ =>
        rewrite (len_lines_hole [a; b; c; d; e; f; g] post block
                 : Py.len (lines (a :: b :: c :: d :: e :: f :: g :: block
                                    :: post)) = _)
    end.
    cbn [nonempty app]. f_equal. subst block.
    destruct (nonempty context); [|reflexivity].
    rewrite <- len_take.
    exact (len_lines_hole
             [ ""; "";
               "Here is additional relevant context retrieved from the document:";
               "---" ] _ (Py.take 2000 context)).
  - unfold ask_context_block.
    now rewrite !take_take, (nonempty_take 2999 context),
      (nonempty_take 2999 text).
  - unfold ask_context_block.
    destruct (nonempty context).
    + rewrite <- len_take.
      exact (len_lines_hole
               [ ""; "Here is the relevant context from the uploaded document:";
                 "---" ] _ (Py.take 3000 context)).
    + destruct (nonempty text); [|reflexivity].
      rewrite <- len_take.
      exact (len_lines_hole
               [ ""; "Here is the document content:"; "---" ] _
               (Py.take 3000 text)).
Qed.

(** ** A JSON object inside prose *)

Section BraceFacts.

Lemma find_char_append (d : ascii) (pre post : string) :
  Py.all_chars (fun c => negb (Ascii.eqb c d)) pre = true ->
  Py.find_char d (pre +:+ String d post) = Some (pre, post).
Proof.
  induction pre as [|c pre IH]; intros Hpre.
  - change (Py.find_char d (String d post) = Some ("", post)).
    cbn [Py.find_char]. now rewrite Ascii.eqb_refl.
  - cbn [Py.all_chars] in Hpre. apply andb_prop in Hpre as [Hc Hpre].
    change (String c pre +:+ String d post)
      with (String c (pre +:+ String d post)).
    cbn [Py.find_char]. apply negb_true_iff in Hc. rewrite Hc, (IH Hpre).
    reflexivity.
Qed.

Lemma search_braces_embedded (pre body post : string) :
  Py.all_chars (fun c => negb (Ascii.eqb c "{")) pre = true ->
  Py.all_chars (fun c => negb (Ascii.eqb c "}")) body = true ->
  search_braces (pre +:+ "{" +:+ body +:+ "}" +:+ post)
    = Some ("{" +:+ body +:+ "}").
Proof.
  intros Hpre Hbody. unfold search_braces.
  change (pre +:+ "{" +:+ body +:+ "}" +:+ post)
    with (pre +:+ String "{" (body +:+ String "}" post)).
  rewrite (find_char_append _ _ _ Hpre).
  change (('(inside, _) ← Py.find_char "}" (body +:+ String "}" post);
           Some ("{" +:+ inside +:+ "}")) = Some ("{" +:+ body +:+ "}")).
  rewrite (find_char_append _ _ _ Hbody). reflexivity.
Qed.

End BraceFacts.

(** X21. When the whole reply is not JSON but holds an opening brace and a
    closing brace after it, [parse_llm_json] decodes the text from the first
    opening brace to the first closing brace that follows.  If that text is
    a JSON object, the object is returned with the page number set; if it is
    not, as when the object holds a nested object whose closing brace ends
    the match early, the reply is used as text. *)
Theorem embedded_object_recovered `{E : Env} (raw pre body post msg : string)
    (n : Z) :
  raw = pre +:+ "{" +:+ body +:+ "}" +:+ post ->
  Py.all_chars (fun c => negb (Ascii.eqb c "{")) pre = true ->
  Py.all_chars (fun c => negb (Ascii.eqb c "}")) body = true ->
  json_loads (strip_fences raw) = Raise (JSONDecodeError msg) ->
  (forall d,
     json_loads ("{" +:+ body +:+ "}") = Ret (VDict d) ->
     parse_llm_json raw n = Ret (<["page_number" := VInt n]> d))
  /\ (forall e,
        json_loads ("{" +:+ body +:+ "}") = Raise e ->
        parse_llm_json raw n = Ret (raw_as_section (Py.take 1500 raw) n)).
Proof.
  intros Hraw Hpre Hbody Hjson.
  pose proof (search_braces_embedded pre body post Hpre Hbody) as Hsearch.
  rewrite <- Hraw in Hsearch.
  assert (nonempty raw = true) as Hne.
  { rewrite Hraw. destruct pre; reflexivity. }
  split.
  - intros d Hd. unfold parse_llm_json.
    rewrite Hne, Hjson, Hsearch. cbn. now rewrite Hd.
  - intros e He. unfold parse_llm_json.
    rewrite Hne, Hjson, Hsearch. cbn. now rewrite He.
Qed.

(** An answer wrapped in a sentence, and an answer whose object holds a
    nested object. *)
Lemma embedded_object_recovered_witness :
  let E := example_env loader_works endpoint_down in
  let body := quoted "answer" +:+ ": " +:+ quoted "May" in
  let nested := quoted "answer" +:+ ": {" +:+ quoted "month" +:+ ": 5" in
  parse_llm_json ("Here you go: {" +:+ body +:+ "} I hope it helps.") 1
    = Ret (<["page_number" := VInt 1]> {[ "answer" := VStr "May" ]})
  /\ parse_llm_json ("Here you go: {" +:+ nested +:+ "}} I hope it helps.") 1
     = Ret (raw_as_section
              ("Here you go: {" +:+ nested +:+ "}} I hope it helps.") 1).
Proof.
  intros E body nested. split.
  - apply (proj1 (@embedded_object_recovered E _ "Here you go: " body
                    " I hope it helps." "Expecting value" 1
                    eq_refl eq_refl eq_refl eq_refl)).
    vm_compute. reflexivity.
  - apply (proj2 (@embedded_object_recovered E _ "Here you go: " nested
                    "} I hope it helps." "Expecting value" 1
                    eq_refl eq_refl eq_refl eq_refl)
             (JSONDecodeError "Expecting value")).
    vm_compute. reflexivity.
Defined.
